(** * webhook_tester: the order form of the Trading Webhook Tester

    A shallow embedding of [src/webhook_tester/webhook_tester.py].  The
    Tk variables of [WebhookApp] and the few widget options the handlers
    write are one record; every handler is a function on that record;
    [validate_input] returns the pair the source returns; the payload of
    [send_webhook] is a finite map from keys to Python values (the
    insertion order of the dict plays no part in what is proved).

    The two built-ins the handlers rely on, [float] and [int] applied to
    a [str], are modelled in [PyNum] on ASCII text: binary64 values are
    [spec_float] with the comparisons of [SpecFloat], and a decimal
    literal is rounded to nearest-even by an exact division, as CPython's
    correctly rounded [strtod] does.  A byte above 127 never parses (the
    Unicode digits and blanks that CPython also accepts are outside the
    model). *)

From Stdlib Require Import ZArith NArith String Ascii Bool.
From Stdlib Require Import Floats.SpecFloat.
From stdpp Require Import base option list strings gmap.

Open Scope string_scope.
Open Scope Z_scope.

(* ===================================================================== *)
(** ** Python strings *)
(* ===================================================================== *)

Module PyStr.

(** [not s] for a [str]: only the empty string is falsy. *)
Definition is_empty (s : string) : bool :=
  match s with
  | EmptyString => true
  | String _ _ => false
  end.

(** [s.endswith(suffix)]. *)
Definition endswith (s suffix : string) : bool :=
  let n := String.length s in
  let k := String.length suffix in
  (k <=? n)%nat && String.eqb (substring (n - k) k s) suffix.

(** [s[:-1]]: all but the last character; the empty string stays empty. *)
Definition drop_last (s : string) : string :=
  substring 0 (String.length s - 1) s.

End PyStr.

(* ===================================================================== *)
(** ** Python numbers read from text: [float(str)] and [int(str)] *)
(* ===================================================================== *)

Module PyNum.

Definition code (c : ascii) : nat := nat_of_ascii c.

(** [Py_ISSPACE]: tab, line feed, vertical tab, form feed, carriage
    return and space. *)
Definition is_space (c : ascii) : bool :=
  ((9 <=? code c)%nat && (code c <=? 13)%nat) || (code c =? 32)%nat.

Definition is_digit (c : ascii) : bool :=
  (48 <=? code c)%nat && (code c <=? 57)%nat.

Definition is_underscore (c : ascii) : bool := (code c =? 95)%nat.

Definition lower (c : ascii) : ascii :=
  if (65 <=? code c)%nat && (code c <=? 90)%nat
  then ascii_of_nat (code c + 32) else c.

Fixpoint lstrip (l : list ascii) : list ascii :=
  match l with
  | c :: r => if is_space c then lstrip r else l
  | [] => []
  end.

Definition strip (l : list ascii) : list ascii :=
  rev (lstrip (rev (lstrip l))).

(** An underscore is allowed only between two digits; [prev] is the
    character before [l] (NUL at the start). *)
Fixpoint underscores_ok (prev : ascii) (l : list ascii) : bool :=
  match l with
  | [] => negb (is_underscore prev)
  | c :: r =>
      (if is_underscore c then is_digit prev
       else negb (is_underscore prev) || is_digit c)
      && underscores_ok c r
  end.

Definition remove_underscores (l : list ascii) : list ascii :=
  filter (fun c => is_underscore c = false) l.

(** The longest prefix of digits, and what follows it. *)
Fixpoint span_digits (l : list ascii) : list ascii * list ascii :=
  match l with
  | c :: r =>
      if is_digit c
      then let '(ds, rest) := span_digits r in (c :: ds, rest)
      else ([], l)
  | [] => ([], [])
  end.

Definition digits_value (ds : list ascii) : Z :=
  fold_left (fun acc c => 10 * acc + (Z.of_nat (code c) - 48)) ds 0.

(** An optional sign: [true] for a minus. *)
Definition parse_sign (l : list ascii) : bool * list ascii :=
  match l with
  | c :: r =>
      if (code c =? 45)%nat then (true, r)
      else if (code c =? 43)%nat then (false, r)
      else (false, l)
  | [] => (false, [])
  end.

(** *** binary64 values *)

Definition prec : Z := 53.
Definition emax : Z := 1024.

(** The binary64 nearest to [n/d], ties to even; overflow gives an
    infinity and underflow a subnormal or a zero. *)
Definition round_ratio (neg : bool) (n d : positive) : spec_float :=
  SFdiv prec emax (S754_finite neg n 0) (S754_finite false d 0).

(** The binary64 nearest to [m * 10^e], signed. *)
Definition decimal_value (neg : bool) (m e : Z) : spec_float :=
  match m with
  | Zpos p =>
      if 0 <=? e
      then round_ratio neg (Z.to_pos (Zpos p * 10 ^ e)) 1
      else round_ratio neg p (Z.to_pos (10 ^ (- e)))
  | _ => S754_zero neg
  end.

Definition float_of_Z (z : Z) : spec_float :=
  decimal_value (z <? 0) (Z.abs z) 0.

(** [a < b] and [a <= b] on floats: false as soon as a NaN is involved. *)
Definition flt (a b : spec_float) : bool := SFltb a b.
Definition fle (a b : spec_float) : bool := SFleb a b.

(** *** [float(str)] *)

(** The exponent part: nothing, or [e]/[E], an optional sign and at
    least one digit, up to the end of the text. *)
Definition parse_exponent (l : list ascii) : option Z :=
  match l with
  | [] => Some 0
  | c :: r =>
      if (code (lower c) =? 101)%nat then
        let '(neg, r') := parse_sign r in
        match span_digits r' with
        | ((_ :: _) as ds, []) =>
            Some (if neg : bool then - digits_value ds else digits_value ds)
        | _ => None
        end
      else None
  end.

(** [sign digits [. digits] [exponent]] with a digit on at least one
    side of the point. *)
Definition parse_decimal (l : list ascii) : option spec_float :=
  let '(neg, r) := parse_sign l in
  let '(ip, r1) := span_digits r in
  let '(fp, r2) :=
    match r1 with
    | c :: t => if (code c =? 46)%nat then span_digits t else ([], r1)
    | [] => ([], r1)
    end in
  match (ip ++ fp)%list with
  | [] => None
  | ds =>
      match parse_exponent r2 with
      | Some e => Some (decimal_value neg (digits_value ds)
                                      (e - Z.of_nat (List.length fp)))
      | None => None
      end
  end.

(** [inf], [infinity] and [nan] in any case, with an optional sign. *)
Definition parse_inf_or_nan (l : list ascii) : option spec_float :=
  let '(neg, r) := parse_sign l in
  let w := string_of_list_ascii (map lower r) in
  if String.eqb w "inf" || String.eqb w "infinity" then Some (S754_infinity neg)
  else if String.eqb w "nan" then Some S754_nan
  else None.

Definition parse_float (l : list ascii) : option spec_float :=
  match parse_decimal l with
  | Some v => Some v
  | None => parse_inf_or_nan l
  end.

(** [float(s)]: [None] stands for [ValueError]. *)
Definition float (s : string) : option spec_float :=
  let l := strip (list_ascii_of_string s) in
  if existsb is_underscore l then
    if underscores_ok zero l then parse_float (remove_underscores l) else None
  else parse_float l.

(** *** [int(str)] *)

(** [int(s)] in base ten: [None] stands for [ValueError].  The cap on
    the number of digits that recent CPython versions put on this
    conversion is not modelled. *)
Definition int (s : string) : option Z :=
  let l := strip (list_ascii_of_string s) in
  let '(neg, r) := parse_sign l in
  if underscores_ok zero r then
    match span_digits (remove_underscores r) with
    | ((_ :: _) as ds, []) =>
        Some (if neg : bool then - digits_value ds else digits_value ds)
    | _ => None
    end
  else None.

End PyNum.

Import PyStr PyNum.

(* ===================================================================== *)
(** ** The form: constants, variables and widget options *)
(* ===================================================================== *)

Definition WEBHOOK_URL : string := "https://webhook.quantmarketintelligence.com/".
Definition AUTH_TOKEN : string := "z8V%kewzQ%m%XKdMJGdWtbX8!V8ZKqHz".

(** [self.trading_pairs]: the trading pairs by type. *)
Definition trading_pairs : gmap string (list string) :=
  list_to_map
    [ ("spot", ["BTC-USDT"; "ETH-USDT"]);
      ("perps", ["BTC-USDT-SWAP"; "ETH-USDT-SWAP"; "BTC-USD-SWAP"; "ETH-USD-SWAP"]);
      ("invperps", ["BTC-USD-SWAP"; "ETH-USD-SWAP"]) ].

(** [self.trading_pairs.get(trade_type, [])]. *)
Definition trading_pairs_get (trade_type : string) : list string :=
  default [] (trading_pairs !! trade_type).

Definition qty_presets : list string := ["100%"; "75%"; "50%"; "25%"; "10%"; "5%"].

(** The value lists handed to the comboboxes in [build_form]. *)
Definition exchange_values : list string := ["okx"; "binance"].
Definition type_values : list string := ["spot"; "perps"; "invperps"].
Definition side_values : list string := ["buy"; "sell"].
Definition margin_mode_values : list string := ["cross"; "isolated"].
Definition leverage_values : list string :=
  ["1"; "2"; "3"; "5"; "10"; "20"; "50"; "75"; "100"; "125"].

(** [self.variables] together with the widget options that the handlers
    configure: the value list of the symbol combobox and the [state] of
    the four widgets that get enabled and disabled. *)
Record WebhookApp : Type := mkApp {
  exchange_var : string;
  type_var : string;
  symbol_var : string;
  side_var : string;
  qty_var : string;
  margin_mode_var : string;
  leverage_var : string;
  close_position_var : bool;
  symbol_dropdown_values : list string;
  side_dropdown_state : string;
  qty_entry_state : string;
  margin_mode_dropdown_state : string;
  leverage_dropdown_state : string
}.

(** One setter per field ([var.set(v)], [widget.configure(state=v)]). *)
Definition set_exchange_var (v : string) (a : WebhookApp) : WebhookApp :=
  mkApp v (type_var a) (symbol_var a) (side_var a) (qty_var a)
        (margin_mode_var a) (leverage_var a) (close_position_var a)
        (symbol_dropdown_values a) (side_dropdown_state a) (qty_entry_state a)
        (margin_mode_dropdown_state a) (leverage_dropdown_state a).

Definition set_type_var (v : string) (a : WebhookApp) : WebhookApp :=
  mkApp (exchange_var a) v (symbol_var a) (side_var a) (qty_var a)
        (margin_mode_var a) (leverage_var a) (close_position_var a)
        (symbol_dropdown_values a) (side_dropdown_state a) (qty_entry_state a)
        (margin_mode_dropdown_state a) (leverage_dropdown_state a).

Definition set_symbol_var (v : string) (a : WebhookApp) : WebhookApp :=
  mkApp (exchange_var a) (type_var a) v (side_var a) (qty_var a)
        (margin_mode_var a) (leverage_var a) (close_position_var a)
        (symbol_dropdown_values a) (side_dropdown_state a) (qty_entry_state a)
        (margin_mode_dropdown_state a) (leverage_dropdown_state a).

Definition set_side_var (v : string) (a : WebhookApp) : WebhookApp :=
  mkApp (exchange_var a) (type_var a) (symbol_var a) v (qty_var a)
        (margin_mode_var a) (leverage_var a) (close_position_var a)
        (symbol_dropdown_values a) (side_dropdown_state a) (qty_entry_state a)
        (margin_mode_dropdown_state a) (leverage_dropdown_state a).

Definition set_qty_var (v : string) (a : WebhookApp) : WebhookApp :=
  mkApp (exchange_var a) (type_var a) (symbol_var a) (side_var a) v
        (margin_mode_var a) (leverage_var a) (close_position_var a)
        (symbol_dropdown_values a) (side_dropdown_state a) (qty_entry_state a)
        (margin_mode_dropdown_state a) (leverage_dropdown_state a).

Definition set_margin_mode_var (v : string) (a : WebhookApp) : WebhookApp :=
  mkApp (exchange_var a) (type_var a) (symbol_var a) (side_var a) (qty_var a)
        v (leverage_var a) (close_position_var a)
        (symbol_dropdown_values a) (side_dropdown_state a) (qty_entry_state a)
        (margin_mode_dropdown_state a) (leverage_dropdown_state a).

Definition set_leverage_var (v : string) (a : WebhookApp) : WebhookApp :=
  mkApp (exchange_var a) (type_var a) (symbol_var a) (side_var a) (qty_var a)
        (margin_mode_var a) v (close_position_var a)
        (symbol_dropdown_values a) (side_dropdown_state a) (qty_entry_state a)
        (margin_mode_dropdown_state a) (leverage_dropdown_state a).

Definition set_close_position_var (v : bool) (a : WebhookApp) : WebhookApp :=
  mkApp (exchange_var a) (type_var a) (symbol_var a) (side_var a) (qty_var a)
        (margin_mode_var a) (leverage_var a) v
        (symbol_dropdown_values a) (side_dropdown_state a) (qty_entry_state a)
        (margin_mode_dropdown_state a) (leverage_dropdown_state a).

Definition set_symbol_dropdown_values (v : list string) (a : WebhookApp) : WebhookApp :=
  mkApp (exchange_var a) (type_var a) (symbol_var a) (side_var a) (qty_var a)
        (margin_mode_var a) (leverage_var a) (close_position_var a)
        v (side_dropdown_state a) (qty_entry_state a)
        (margin_mode_dropdown_state a) (leverage_dropdown_state a).

Definition set_side_dropdown_state (v : string) (a : WebhookApp) : WebhookApp :=
  mkApp (exchange_var a) (type_var a) (symbol_var a) (side_var a) (qty_var a)
        (margin_mode_var a) (leverage_var a) (close_position_var a)
        (symbol_dropdown_values a) v (qty_entry_state a)
        (margin_mode_dropdown_state a) (leverage_dropdown_state a).

Definition set_qty_entry_state (v : string) (a : WebhookApp) : WebhookApp :=
  mkApp (exchange_var a) (type_var a) (symbol_var a) (side_var a) (qty_var a)
        (margin_mode_var a) (leverage_var a) (close_position_var a)
        (symbol_dropdown_values a) (side_dropdown_state a) v
        (margin_mode_dropdown_state a) (leverage_dropdown_state a).

Definition set_margin_mode_dropdown_state (v : string) (a : WebhookApp) : WebhookApp :=
  mkApp (exchange_var a) (type_var a) (symbol_var a) (side_var a) (qty_var a)
        (margin_mode_var a) (leverage_var a) (close_position_var a)
        (symbol_dropdown_values a) (side_dropdown_state a) (qty_entry_state a)
        v (leverage_dropdown_state a).

Definition set_leverage_dropdown_state (v : string) (a : WebhookApp) : WebhookApp :=
  mkApp (exchange_var a) (type_var a) (symbol_var a) (side_var a) (qty_var a)
        (margin_mode_var a) (leverage_var a) (close_position_var a)
        (symbol_dropdown_values a) (side_dropdown_state a) (qty_entry_state a)
        (margin_mode_dropdown_state a) v.

(** The form once [__init__] has returned: the variables with their
    initial values ([StringVar()] is empty, [BooleanVar()] is false) and
    the widgets as [build_form] creates them (the symbol combobox gets no
    value list, the entry is in Tk's default state).  [__init__] does not
    call [on_type_change]. *)
Definition init : WebhookApp :=
  {| exchange_var := "okx";
     type_var := "spot";
     symbol_var := "";
     side_var := "";
     qty_var := "";
     margin_mode_var := "cross";
     leverage_var := "10";
     close_position_var := false;
     symbol_dropdown_values := [];
     side_dropdown_state := "readonly";
     qty_entry_state := "normal";
     margin_mode_dropdown_state := "readonly";
     leverage_dropdown_state := "readonly" |}.

(* ===================================================================== *)
(** ** The handlers *)
(* ===================================================================== *)

(** [on_type_change]: reads the trade type already stored in [type_var]. *)
Definition on_type_change (a : WebhookApp) : WebhookApp :=
  let trade_type := type_var a in
  (* Update symbol dropdown *)
  let symbol_pairs := trading_pairs_get trade_type in
  let a := set_symbol_dropdown_values symbol_pairs a in
  let a :=
    match symbol_pairs with
    | first :: _ => set_symbol_var first a
    | [] => a
    end in
  (* Update margin settings based on type *)
  if String.eqb trade_type "spot" then
    let a := set_margin_mode_var "cash" a in
    let a := set_leverage_var "1" a in
    let a := set_margin_mode_dropdown_state "disabled" a in
    set_leverage_dropdown_state "disabled" a
  else
    let a := set_margin_mode_dropdown_state "readonly" a in
    let a := set_leverage_dropdown_state "readonly" a in
    let a := set_margin_mode_var "cross" a in
    set_leverage_var "10" a.

(** [on_close_position_toggle]: reads [close_position_var], which the
    check button has already flipped. *)
Definition on_close_position_toggle (a : WebhookApp) : WebhookApp :=
  let is_closing := close_position_var a in
  let state := if is_closing then "disabled" else "readonly" in
  let a := set_side_dropdown_state state a in
  set_qty_entry_state (if is_closing then "disabled" else "normal") a.

(** [clear_form]: every [BooleanVar] to [False], every other variable to
    the empty string, then [on_type_change]. *)
Definition clear_form (a : WebhookApp) : WebhookApp :=
  let a := set_exchange_var "" a in
  let a := set_type_var "" a in
  let a := set_symbol_var "" a in
  let a := set_side_var "" a in
  let a := set_qty_var "" a in
  let a := set_margin_mode_var "" a in
  let a := set_leverage_var "" a in
  let a := set_close_position_var false a in
  on_type_change a.

(** [validate_input]: the pair [(valid, error_msg)]. *)
Definition validate_input (a : WebhookApp) : bool * string :=
  if is_empty (exchange_var a) then (false, "Please select an exchange")
  else if is_empty (type_var a) then (false, "Please select a trade type")
  else if is_empty (symbol_var a) then (false, "Please select a trading pair")
  else
    let is_closing := close_position_var a in
    if negb is_closing then
      if is_empty (side_var a) then (false, "Please select a side")
      else if is_empty (qty_var a) then (false, "Please enter a quantity")
      else
        (* Validate quantity format *)
        let qty := qty_var a in
        if endswith qty "%" then
          match float (drop_last qty) with
          | Some pct =>
              if negb (flt (float_of_Z 0) pct && fle pct (float_of_Z 100))
              then (false, "Percentage must be between 0 and 100")
              else (true, "")
          | None => (false, "Invalid percentage format")
          end
        else
          match float qty with
          | Some amt =>
              if fle amt (float_of_Z 0)
              then (false, "Quantity must be greater than 0")
              else (true, "")
          | None => (false, "Invalid quantity format")
          end
    else (true, "").

(** The values a payload holds. *)
Inductive pyval : Type :=
| VStr (s : string)
| VInt (n : Z)
| VBool (b : bool).

Global Instance pyval_eq_dec : EqDecision pyval.
Proof. solve_decision. Defined.

(** The dict literal that [send_webhook] starts from. *)
Definition payload_literal (a : WebhookApp) : gmap string pyval :=
  list_to_map
    [ ("authToken", VStr AUTH_TOKEN);
      ("exchange", VStr (exchange_var a));
      ("symbol", VStr (symbol_var a));
      ("type", VStr (type_var a));
      ("marginMode", VStr (margin_mode_var a)) ].

(** The payload of [send_webhook], built as the source builds it: the
    dict literal, then [leverage] for non-spot trades, then the fields of
    a new position or the close flag.  [None] stands for the [ValueError]
    of [int]. *)
Definition construct_payload (a : WebhookApp) : option (gmap string pyval) :=
  let payload := payload_literal a in
  (* Add leverage for non-spot trades *)
  payload ←
    (if decide (payload !! "type" = Some (VStr "spot")) then Some payload
     else n ← int (leverage_var a); Some (<["leverage" := VInt n]> payload));
  (* Add fields for new positions *)
  if negb (close_position_var a) then
    Some (<["qty" := VStr (qty_var a)]> (<["side" := VStr (side_var a)]> payload))
  else
    Some (<["closePosition" := VBool true]> payload).

(** What [send_webhook] does up to the request: an error dialog with the
    validator's message, the [ValueError] of [int] escaping the handler,
    or the payload given to [requests.post].  The response is reported in
    a dialog and changes nothing in the form. *)
Inductive outcome : Type :=
| validation_error (error_msg : string)
| value_error
| post (payload : gmap string pyval).

Definition send_webhook (a : WebhookApp) : outcome :=
  let '(valid, error_msg) := validate_input a in
  if negb valid then validation_error error_msg
  else
    match construct_payload a with
    | Some payload => post payload
    | None => value_error
    end.

(* ===================================================================== *)
(** ** The user's actions and the states they reach *)
(* ===================================================================== *)

(** What the user can do with the widgets of [build_form]. *)
Inductive event : Type :=
| SelectExchange (v : string)
| SelectType (v : string)
| SelectSymbol (v : string)
| SelectSide (v : string)
| TypeQuantity (text : string)
| SelectQtyPreset (v : string)
| SelectMarginMode (v : string)
| SelectLeverage (v : string)
| ToggleClosePosition
| ClickSend
| ClickClear.

(** A combobox offers its value list unless it is disabled; the entry
    takes any text while it is in the normal state; the preset combobox
    is never disabled. *)
Definition offered (a : WebhookApp) (e : event) : Prop :=
  match e with
  | SelectExchange v => v ∈ exchange_values
  | SelectType v => v ∈ type_values
  | SelectSymbol v => v ∈ symbol_dropdown_values a
  | SelectSide v => v ∈ side_values ∧ side_dropdown_state a ≠ "disabled"
  | TypeQuantity _ => qty_entry_state a = "normal"
  | SelectQtyPreset v => v ∈ qty_presets
  | SelectMarginMode v =>
      v ∈ margin_mode_values ∧ margin_mode_dropdown_state a ≠ "disabled"
  | SelectLeverage v =>
      v ∈ leverage_values ∧ leverage_dropdown_state a ≠ "disabled"
  | ToggleClosePosition | ClickSend | ClickClear => True
  end.

(** The widget stores the choice in its variable, then the bound handler
    runs.  Sending leaves the form as it is. *)
Definition handle (e : event) (a : WebhookApp) : WebhookApp :=
  match e with
  | SelectExchange v => set_exchange_var v a
  | SelectType v => on_type_change (set_type_var v a)
  | SelectSymbol v => set_symbol_var v a
  | SelectSide v => set_side_var v a
  | TypeQuantity text => set_qty_var text a
  | SelectQtyPreset v => set_qty_var v a
  | SelectMarginMode v => set_margin_mode_var v a
  | SelectLeverage v => set_leverage_var v a
  | ToggleClosePosition =>
      on_close_position_toggle
        (set_close_position_var (negb (close_position_var a)) a)
  | ClickSend => a
  | ClickClear => clear_form a
  end.

Inductive step : WebhookApp -> WebhookApp -> Prop :=
| step_event (a : WebhookApp) (e : event) :
    offered a e -> step a (handle e a).

Inductive reachable : WebhookApp -> Prop :=
| reachable_init : reachable init
| reachable_step (a b : WebhookApp) : reachable a -> step a b -> reachable b.

(** The form after the events of [es], oldest first. *)
Definition run (es : list event) (a : WebhookApp) : WebhookApp :=
  fold_left (fun a e => handle e a) es a.

(** Every event of [es] is offered in the form it meets. *)
Fixpoint all_offered (es : list event) (a : WebhookApp) : Prop :=
  match es with
  | [] => True
  | e :: rest => offered a e ∧ all_offered rest (handle e a)
  end.

(** The spot rule: a spot form has cash margin, leverage 1 and both
    margin widgets disabled. *)
Definition spot_locked (a : WebhookApp) : Prop :=
  type_var a = "spot" ->
  margin_mode_var a = "cash" ∧ leverage_var a = "1" ∧
  margin_mode_dropdown_state a = "disabled" ∧
  leverage_dropdown_state a = "disabled".

(** In a reachable form the symbol, when set, is a pair of the current
    trade type, and so is everything the symbol combobox offers. *)
Definition symbol_eligible (a : WebhookApp) : Prop :=
  (symbol_var a = "" ∨ symbol_var a ∈ trading_pairs_get (type_var a)) ∧
  (forall v, v ∈ symbol_dropdown_values a -> v ∈ trading_pairs_get (type_var a)).

(** The leverage text reads as an integer whenever [send_webhook] needs
    one. *)
Definition leverage_readable (a : WebhookApp) : Prop :=
  type_var a = "spot" ∨ is_Some (int (leverage_var a)).

(* ===================================================================== *)
(** ** The validator as an ordered list of checks *)
(* ===================================================================== *)

(** A check looks at the form and either passes or gives its message. *)
Definition check : Type := WebhookApp -> option string.

(** A field that must be set. *)
Definition require_set (field : WebhookApp -> string) (msg : string) : check :=
  fun a => if is_empty (field a) then Some msg else None.

(** A check that is skipped while the form closes a position. *)
Definition unless_closing (c : check) : check :=
  fun a => if close_position_var a then None else c a.

(** The format of the quantity text, as [validate_input] tests it. *)
Definition quantity_format : check :=
  fun a =>
    let qty := qty_var a in
    if endswith qty "%" then
      match float (drop_last qty) with
      | Some pct =>
          if negb (flt (float_of_Z 0) pct && fle pct (float_of_Z 100))
          then Some "Percentage must be between 0 and 100"
          else None
      | None => Some "Invalid percentage format"
      end
    else
      match float qty with
      | Some amt =>
          if fle amt (float_of_Z 0)
          then Some "Quantity must be greater than 0"
          else None
      | None => Some "Invalid quantity format"
      end.

(** The order of the checks: exchange, trade type, symbol, then side,
    quantity present and quantity format unless closing. *)
Definition checks_in_order : list check :=
  [ require_set exchange_var "Please select an exchange";
    require_set type_var "Please select a trade type";
    require_set symbol_var "Please select a trading pair";
    unless_closing (require_set side_var "Please select a side");
    unless_closing (require_set qty_var "Please enter a quantity");
    unless_closing quantity_format ].

(** The message of the first check that fails, if any. *)
Fixpoint first_failure (cs : list check) (a : WebhookApp) : option string :=
  match cs with
  | [] => None
  | c :: rest =>
      match c a with
      | Some msg => Some msg
      | None => first_failure rest a
      end
  end.

Definition verdict (failure : option string) : bool * string :=
  match failure with
  | Some msg => (false, msg)
  | None => (true, "")
  end.

(** The spec's reason names for the messages of [validate_input]; both
    format messages are [InvalidQuantityFormat]. *)
Inductive RejectionReason : Type :=
| MissingExchange | MissingTradeType | MissingSymbol | MissingSide
| MissingQuantity | InvalidPercentage | InvalidQuantity | InvalidQuantityFormat.

Definition reason_messages : list (string * RejectionReason) :=
  [ ("Please select an exchange", MissingExchange);
    ("Please select a trade type", MissingTradeType);
    ("Please select a trading pair", MissingSymbol);
    ("Please select a side", MissingSide);
    ("Please enter a quantity", MissingQuantity);
    ("Percentage must be between 0 and 100", InvalidPercentage);
    ("Quantity must be greater than 0", InvalidQuantity);
    ("Invalid percentage format", InvalidQuantityFormat);
    ("Invalid quantity format", InvalidQuantityFormat) ].

(** The reason a message stands for. *)
Definition reason_of (msg : string) : option RejectionReason :=
  snd <$> List.find (fun entry => String.eqb (fst entry) msg) reason_messages.

(** A binary64 that is a positive finite number. *)
Definition positive_finite (v : spec_float) : bool :=
  match v with
  | S754_finite false _ _ => true
  | _ => false
  end.

(** The form of a new order whose checks before the quantity format all
    pass. *)
Definition order_fields_set (a : WebhookApp) : Prop :=
  exchange_var a <> "" ∧ type_var a <> "" ∧ symbol_var a <> "" ∧
  close_position_var a = false ∧ side_var a <> "" ∧ qty_var a <> "".

(** The verdict on the quantity text, by the value it parses to. *)
Definition quantity_rules (a : WebhookApp) : Prop :=
  let qty := qty_var a in
  (endswith qty "%" = true ->
     match float (drop_last qty) with
     | Some v =>
         if flt (float_of_Z 0) v && fle v (float_of_Z 100)
         then validate_input a = (true, "")
         else validate_input a = (false, "Percentage must be between 0 and 100")
     | None => validate_input a = (false, "Invalid percentage format")
     end) ∧
  (endswith qty "%" = false ->
     match float qty with
     | Some v =>
         (flt (float_of_Z 0) v = true -> validate_input a = (true, "")) ∧
         (fle v (float_of_Z 0) = true ->
            validate_input a = (false, "Quantity must be greater than 0"))
     | None => validate_input a = (false, "Invalid quantity format")
     end).

(* ===================================================================== *)
(** ** Sample forms *)
(* ===================================================================== *)

(** okx, spot, BTC-USDT, buy, with the given quantity text: what the user
    gets by selecting spot, then filling the order in. *)
Definition spot_order (qty : string) : WebhookApp :=
  run [SelectType "spot"; SelectSymbol "BTC-USDT"; SelectSide "buy";
       TypeQuantity qty] init.

(** okx, perps, ETH-USD-SWAP, nothing else filled in. *)
Definition perps_eth_usd : WebhookApp :=
  run [SelectType "perps"; SelectSymbol "ETH-USD-SWAP"] init.

(** A perps form that closes a position, side and quantity left empty. *)
Definition perps_close : WebhookApp :=
  run [SelectType "perps"; ToggleClosePosition] init.

(** A perps order for an absolute amount. *)
Definition perps_order : WebhookApp :=
  run [SelectType "perps"; SelectLeverage "20"; SelectSide "sell";
       TypeQuantity "1.5"] init.

(** A spot order whose symbol is not a spot pair. *)
Definition stray_symbol_order : WebhookApp :=
  set_symbol_var "DOGE-USDT" (spot_order "50%").

(* ===================================================================== *)
(** ** Forms the widgets can produce *)
(* ===================================================================== *)

(** The margin modes a form can hold: the two the combobox offers and the
    one [on_type_change] sets for spot. *)
Definition margin_modes : list string := ["cash"; "cross"; "isolated"].

(** The events after which [on_type_change] has run. *)
Definition synchronising (e : event) : Prop :=
  match e with
  | SelectType _ | ClickClear => True
  | _ => False
  end.

(** The side combobox and the quantity entry are in the state
    [on_close_position_toggle] gives them for the current flag. *)
Definition widgets_match_flag (a : WebhookApp) : Prop :=
  side_dropdown_state a
  = (if close_position_var a then "disabled" else "readonly") ∧
  qty_entry_state a
  = (if close_position_var a then "disabled" else "normal").

(** The form [clear_form] leaves, up to the states of the side combobox
    and of the quantity entry, which it does not touch. *)
Definition cleared_form (side_state qty_state : string) : WebhookApp :=
  {| exchange_var := "";
     type_var := "";
     symbol_var := "";
     side_var := "";
     qty_var := "";
     margin_mode_var := "cross";
     leverage_var := "10";
     close_position_var := false;
     symbol_dropdown_values := [];
     side_dropdown_state := side_state;
     qty_entry_state := qty_state;
     margin_mode_dropdown_state := "readonly";
     leverage_dropdown_state := "readonly" |}.

(** The keys of the payload of a form. *)
Definition payload_keys (a : WebhookApp) : gset string :=
  list_to_set ["authToken"; "exchange"; "symbol"; "type"; "marginMode"]
  ∪ (if String.eqb (type_var a) "spot" then ∅ else {["leverage"]})
  ∪ (if close_position_var a then {["closePosition"]} else {["side"; "qty"]}).

(** The payload of an outcome that posts one. *)
Definition payload_of (o : outcome) : gmap string pyval :=
  match o with
  | post payload => payload
  | _ => ∅
  end.





(** What holds of every form reached through the widgets. *)
Record widget_form (a : WebhookApp) : Prop := mk_widget_form {
  wf_exchange : exchange_var a ∈ "" :: exchange_values;
  wf_type : type_var a ∈ "" :: type_values;
  wf_side : side_var a ∈ "" :: side_values;
  wf_margin : margin_mode_var a ∈ margin_modes;
  wf_leverage : leverage_var a ∈ leverage_values;
  wf_cash : margin_mode_var a = "cash" -> type_var a = "spot";
  wf_closing :
    close_position_var a = true ->
    side_dropdown_state a = "disabled" ∧ qty_entry_state a = "disabled";
  wf_synced :
    (symbol_var a = "" ∧ symbol_dropdown_values a = []) ∨ spot_locked a
}.

(* ===================================================================== *)
(** ** Python strings and numbers: facts *)
(* ===================================================================== *)

Lemma is_empty_true (s : string) : is_empty s = true <-> s = "".
Proof. destruct s; simpl; split; congruence. Qed.

Lemma is_empty_false (s : string) : is_empty s = false <-> s <> "".
Proof. destruct s; simpl; split; congruence. Qed.

(** With a positive number on the right of [<], [<=] fails the other way
    round. *)
Lemma flt_zero_not_fle (v : spec_float) :
  flt (float_of_Z 0) v = true -> fle v (float_of_Z 0) = false.
Proof.
  unfold flt, fle, SFltb, SFleb.
  destruct v as [s | s | | s m e]; simpl; try discriminate;
    destruct s; simpl; congruence.
Qed.

Lemma leverage_values_readable (v : string) :
  v ∈ leverage_values -> is_Some (int v).
Proof.
  unfold leverage_values. rewrite !elem_of_cons, elem_of_nil.
  intros H. repeat (destruct H as [-> | H]; [vm_compute; eauto |]).
  contradiction.
Qed.

(* ===================================================================== *)
(** ** The payload: facts *)
(* ===================================================================== *)

Lemma payload_literal_type (a : WebhookApp) :
  payload_literal a !! "type" = Some (VStr (type_var a)).
Proof. unfold payload_literal. simpl. by simplify_map_eq. Qed.

Lemma payload_literal_authToken (a : WebhookApp) :
  payload_literal a !! "authToken" = Some (VStr AUTH_TOKEN).
Proof. unfold payload_literal. simpl. by simplify_map_eq. Qed.

(** The literal has exactly its five keys. *)
Lemma payload_literal_other (a : WebhookApp) (k : string) :
  k ∉ ["authToken"; "exchange"; "symbol"; "type"; "marginMode"] ->
  payload_literal a !! k = None.
Proof.
  rewrite !not_elem_of_cons. intros (? & ? & ? & ? & ? & _).
  unfold payload_literal. simpl. by simplify_map_eq.
Qed.

(** The step that adds [leverage]. *)
Lemma leverage_step_spot (a : WebhookApp) :
  type_var a = "spot" ->
  construct_payload a =
    Some (if negb (close_position_var a)
          then <["qty" := VStr (qty_var a)]>
                 (<["side" := VStr (side_var a)]> (payload_literal a))
          else <["closePosition" := VBool true]> (payload_literal a)).
Proof.
  intros Ht. unfold construct_payload. rewrite payload_literal_type, Ht.
  destruct (decide _) as [_ | Hne]; [| by destruct Hne].
  simpl. by destruct (close_position_var a).
Qed.

Lemma leverage_step_margin (a : WebhookApp) :
  type_var a <> "spot" ->
  construct_payload a =
    n ← int (leverage_var a);
    Some (if negb (close_position_var a)
          then <["qty" := VStr (qty_var a)]>
                 (<["side" := VStr (side_var a)]>
                    (<["leverage" := VInt n]> (payload_literal a)))
          else <["closePosition" := VBool true]>
                 (<["leverage" := VInt n]> (payload_literal a))).
Proof.
  intros Ht. unfold construct_payload. rewrite payload_literal_type.
  destruct (decide _) as [Heq | _]; [congruence |].
  destruct (int (leverage_var a)) as [n |]; simpl; [| done].
  by destruct (close_position_var a).
Qed.

(** A payload is built exactly when the leverage text is readable. *)
Lemma construct_payload_is_Some (a : WebhookApp) :
  leverage_readable a <-> is_Some (construct_payload a).
Proof.
  unfold leverage_readable.
  destruct (decide (type_var a = "spot")) as [Ht | Ht].
  - rewrite leverage_step_spot by done. split; eauto.
  - rewrite leverage_step_margin by done.
    destruct (int (leverage_var a)) as [n |]; simpl.
    + split; eauto.
    + split; [intros [? | [? ?]]; done | intros [? ?]; done].
Qed.

(** Every field of a payload that was built. *)
Lemma construct_payload_fields (a : WebhookApp) (p : gmap string pyval) :
  construct_payload a = Some p ->
  p !! "authToken" = Some (VStr AUTH_TOKEN) ∧
  p !! "leverage" =
    (if String.eqb (type_var a) "spot" then None
     else VInt <$> int (leverage_var a)) ∧
  p !! "side" =
    (if close_position_var a then None else Some (VStr (side_var a))) ∧
  p !! "qty" =
    (if close_position_var a then None else Some (VStr (qty_var a))) ∧
  p !! "closePosition" =
    (if close_position_var a then Some (VBool true) else None).
Proof.
  pose proof (payload_literal_authToken a) as Hauth.
  assert (Hnone : forall k, k ∈ ["leverage"; "side"; "qty"; "closePosition"] ->
                    payload_literal a !! k = None).
  { intros k Hk. apply payload_literal_other.
    rewrite !elem_of_cons, elem_of_nil in Hk. rewrite !not_elem_of_cons.
    destruct Hk as [-> | [-> | [-> | [-> | []]]]]; repeat split; try done;
      apply not_elem_of_nil. }
  pose proof (Hnone "leverage" ltac:(set_solver)) as Hlev.
  pose proof (Hnone "side" ltac:(set_solver)) as Hside.
  pose proof (Hnone "qty" ltac:(set_solver)) as Hqty.
  pose proof (Hnone "closePosition" ltac:(set_solver)) as Hclose.
  destruct (decide (type_var a = "spot")) as [Ht | Ht].
  - rewrite leverage_step_spot by done. intros [= <-].
    apply String.eqb_eq in Ht as ->.
    destruct (close_position_var a); simpl; by simplify_map_eq.
  - rewrite leverage_step_margin by done.
    apply String.eqb_neq in Ht as ->.
    destruct (int (leverage_var a)) as [n |]; simpl; [| done].
    intros [= <-].
    destruct (close_position_var a); simpl; by simplify_map_eq.
Qed.

(** [send_webhook] posts exactly when the form is valid and a payload is
    built. *)
Lemma send_webhook_post (a : WebhookApp) (p : gmap string pyval) :
  send_webhook a = post p <->
  fst (validate_input a) = true ∧ construct_payload a = Some p.
Proof.
  unfold send_webhook. destruct (validate_input a) as [[] msg]; simpl.
  - destruct (construct_payload a) as [q |]; split.
    + by intros [= ->].
    + by intros [_ [= ->]].
    + done.
    + by intros [_ ?].
  - split; [done | by intros [? _]].
Qed.

Lemma send_webhook_valid (a : WebhookApp) :
  fst (validate_input a) = true -> leverage_readable a ->
  exists p, send_webhook a = post p ∧ construct_payload a = Some p.
Proof.
  intros Hv Hl. apply construct_payload_is_Some in Hl as [p Hp].
  exists p. split; [by apply send_webhook_post | done].
Qed.

(* ===================================================================== *)
(** ** The handlers: facts *)
(* ===================================================================== *)

(** The handlers are unfolded, the setters are not: a projection of a
    setter reduces by computation. *)
Ltac unfold_handlers :=
  unfold clear_form, on_type_change, on_close_position_toggle; cbv zeta.

(** [on_type_change] always takes the first pair of the type, and keeps
    the symbol only when the type has no pairs. *)
Lemma on_type_change_symbol (a : WebhookApp) :
  symbol_var (on_type_change a) =
    match trading_pairs_get (type_var a) with
    | first :: _ => first
    | [] => symbol_var a
    end.
Proof.
  unfold_handlers.
  destruct (trading_pairs_get (type_var a)), (String.eqb (type_var a) "spot");
    reflexivity.
Qed.

Lemma on_type_change_values (a : WebhookApp) :
  symbol_dropdown_values (on_type_change a) = trading_pairs_get (type_var a).
Proof.
  unfold_handlers.
  destruct (trading_pairs_get (type_var a)), (String.eqb (type_var a) "spot");
    reflexivity.
Qed.

(** What [on_type_change] leaves alone. *)
Lemma on_type_change_frame (a : WebhookApp) :
  exchange_var (on_type_change a) = exchange_var a ∧
  type_var (on_type_change a) = type_var a ∧
  side_var (on_type_change a) = side_var a ∧
  qty_var (on_type_change a) = qty_var a ∧
  close_position_var (on_type_change a) = close_position_var a ∧
  side_dropdown_state (on_type_change a) = side_dropdown_state a ∧
  qty_entry_state (on_type_change a) = qty_entry_state a.
Proof.
  unfold_handlers.
  destruct (trading_pairs_get (type_var a)), (String.eqb (type_var a) "spot");
    repeat split.
Qed.

(** The margin settings after [on_type_change]. *)
Lemma on_type_change_margin (a : WebhookApp) :
  let b := on_type_change a in
  if String.eqb (type_var a) "spot" then
    margin_mode_var b = "cash" ∧ leverage_var b = "1" ∧
    margin_mode_dropdown_state b = "disabled" ∧
    leverage_dropdown_state b = "disabled"
  else
    margin_mode_var b = "cross" ∧ leverage_var b = "10" ∧
    margin_mode_dropdown_state b = "readonly" ∧
    leverage_dropdown_state b = "readonly".
Proof.
  unfold_handlers.
  destruct (trading_pairs_get (type_var a)), (String.eqb (type_var a) "spot");
    repeat split.
Qed.

Lemma on_type_change_spot_locked (a : WebhookApp) :
  spot_locked (on_type_change a).
Proof.
  intros Ht. destruct (on_type_change_frame a) as (_ & Hty & _).
  rewrite Hty in Ht. pose proof (on_type_change_margin a) as H.
  apply String.eqb_eq in Ht. simpl in H. by rewrite Ht in H.
Qed.

(** Every action keeps the spot rule once it holds. *)
Lemma spot_locked_step (a b : WebhookApp) :
  spot_locked a -> step a b -> spot_locked b.
Proof.
  intros Ha Hstep. destruct Hstep as [a e Hoff].
  destruct e; simpl in *;
    try exact Ha.
  - apply on_type_change_spot_locked.
  - intros Ht. destruct Hoff as [_ Hst]. destruct (Ha Ht) as (_ & _ & Hd & _).
    simpl in Hd. contradiction.
  - intros Ht. destruct Hoff as [_ Hst]. destruct (Ha Ht) as (_ & _ & _ & Hd).
    simpl in Hd. contradiction.
  - apply on_type_change_spot_locked.
Qed.

(** Choosing a trade type or clearing the form establishes the rule,
    whatever the form was. *)
Lemma spot_locked_after_sync (a : WebhookApp) (e : event) :
  (exists v, e = SelectType v) ∨ e = ClickClear -> spot_locked (handle e a).
Proof.
  intros [[v ->] | ->]; simpl; apply on_type_change_spot_locked.
Qed.

Lemma on_type_change_leverage_offered (a : WebhookApp) :
  leverage_var (on_type_change a) ∈ leverage_values.
Proof.
  pose proof (on_type_change_margin a) as H. cbv zeta in H.
  destruct (String.eqb (type_var a) "spot");
    destruct H as (_ & Hl & _); rewrite Hl; unfold leverage_values; set_solver.
Qed.

(** The leverage text of a reachable form is one of the offered values,
    so [int] reads it. *)
Lemma reachable_leverage_offered (a : WebhookApp) :
  reachable a -> leverage_var a ∈ leverage_values.
Proof.
  induction 1 as [| a b _ IH Hstep].
  - unfold init, leverage_values. simpl. set_solver.
  - destruct Hstep as [a e Hoff].
    destruct e; try exact IH.
    + apply on_type_change_leverage_offered.
    + by destruct Hoff.
    + apply on_type_change_leverage_offered.
Qed.

Lemma reachable_leverage_readable (a : WebhookApp) :
  reachable a -> leverage_readable a.
Proof.
  intros H. right.
  by apply leverage_values_readable, reachable_leverage_offered.
Qed.

Lemma on_type_change_symbol_eligible (a : WebhookApp) :
  type_var a ∈ type_values ∨ symbol_var a = "" ->
  symbol_eligible (on_type_change a).
Proof.
  intros H. unfold symbol_eligible.
  rewrite on_type_change_symbol, on_type_change_values.
  destruct (on_type_change_frame a) as (_ & Hty & _). rewrite Hty.
  split; [| done]. destruct H as [H | H].
  - unfold type_values in H. rewrite !elem_of_cons, elem_of_nil in H.
    destruct H as [Ht | [Ht | [Ht | []]]]; rewrite Ht; right;
      vm_compute; set_solver.
  - destruct (trading_pairs_get (type_var a)) as [| first rest];
      [by left | right; set_solver].
Qed.

Lemma reachable_symbol_eligible (a : WebhookApp) :
  reachable a -> symbol_eligible a.
Proof.
  induction 1 as [| a b _ IH Hstep].
  - split; [by left | intros v Hv; unfold init in Hv; simpl in Hv; set_solver].
  - destruct Hstep as [a e Hoff].
    destruct e; try exact IH.
    + apply on_type_change_symbol_eligible. by left.
    + destruct IH as [_ Hval]. split; [right; by apply Hval | exact Hval].
    + apply on_type_change_symbol_eligible. by right.
Qed.

(* ===================================================================== *)
(** ** The validator: facts *)
(* ===================================================================== *)

(** A rejection whose message is one of the fixed ones. *)
Ltac rejected := right; split; [reflexivity | vm_compute; eauto].

(** [validate_input] is the first failure of the ordered checks. *)
Lemma validate_input_first_failure (a : WebhookApp) :
  validate_input a = verdict (first_failure checks_in_order a).
Proof.
  unfold validate_input, checks_in_order, first_failure, require_set,
    unless_closing, quantity_format, verdict.
  destruct (is_empty (exchange_var a)); [done |].
  destruct (is_empty (type_var a)); [done |].
  destruct (is_empty (symbol_var a)); [done |].
  destruct (close_position_var a); simpl; [done |].
  destruct (is_empty (side_var a)); [done |].
  destruct (is_empty (qty_var a)); [done |].
  destruct (endswith (qty_var a) "%").
  - destruct (float (drop_last (qty_var a))) as [pct |]; [| done].
    by destruct (negb _).
  - destruct (float (qty_var a)) as [amt |]; [| done].
    by destruct (fle amt _).
Qed.

(** With the three leading fields set and the close flag on, nothing
    else is looked at. *)
Lemma validate_input_closing (a : WebhookApp) :
  exchange_var a <> "" -> type_var a <> "" -> symbol_var a <> "" ->
  close_position_var a = true ->
  validate_input a = (true, "").
Proof.
  intros He Ht Hs Hc. unfold validate_input.
  apply is_empty_false in He, Ht, Hs. by rewrite He, Ht, Hs, Hc.
Qed.

(** The quantity branch of [validate_input], reached when every earlier
    check passes. *)
Lemma validate_input_quantity (a : WebhookApp) :
  exchange_var a <> "" -> type_var a <> "" -> symbol_var a <> "" ->
  close_position_var a = false -> side_var a <> "" -> qty_var a <> "" ->
  validate_input a = verdict (quantity_format a).
Proof.
  intros He Ht Hs Hc Hsd Hq. rewrite validate_input_first_failure.
  unfold checks_in_order, first_failure, require_set, unless_closing.
  apply is_empty_false in He, Ht, Hs, Hsd, Hq.
  rewrite He, Ht, Hs, Hc, Hsd, Hq. by destruct (quantity_format a).
Qed.

(* ===================================================================== *)
(** ** The sample forms *)
(* ===================================================================== *)

Lemma trading_pairs_get_spot :
  trading_pairs_get "spot" = ["BTC-USDT"; "ETH-USDT"].
Proof. vm_compute. reflexivity. Qed.

Lemma trading_pairs_get_invperps :
  trading_pairs_get "invperps" = ["BTC-USD-SWAP"; "ETH-USD-SWAP"].
Proof. vm_compute. reflexivity. Qed.

Lemma spot_pairs_exclude_doge : "DOGE-USDT" ∉ ["BTC-USDT"; "ETH-USDT"].
Proof.
  rewrite !not_elem_of_cons. repeat split; try discriminate.
  apply not_elem_of_nil.
Qed.

Lemma reachable_handle (a : WebhookApp) (e : event) :
  reachable a -> offered a e -> reachable (handle e a).
Proof. intros Ha He. eapply reachable_step; [exact Ha | by constructor]. Qed.

Lemma run_reachable (es : list event) (a : WebhookApp) :
  reachable a -> all_offered es a -> reachable (run es a).
Proof.
  revert a. induction es as [| e es IH]; intros a Ha Hes; [exact Ha |].
  destruct Hes as [He Hes]. apply (IH (handle e a)); [| exact Hes].
  by apply reachable_handle.
Qed.

Ltac offered_here :=
  repeat split; vm_compute; first [exact I | reflexivity | discriminate | set_solver].

Lemma spot_order_reachable (qty : string) : reachable (spot_order qty).
Proof. apply run_reachable; [apply reachable_init | offered_here]. Qed.

Lemma perps_close_reachable : reachable perps_close.
Proof. apply run_reachable; [apply reachable_init | offered_here]. Qed.

Lemma perps_order_reachable : reachable perps_order.
Proof. apply run_reachable; [apply reachable_init | offered_here]. Qed.

(** The stray symbol cannot be entered through the widgets. *)
Lemma stray_symbol_order_unreachable : ~ reachable stray_symbol_order.
Proof.
  intros H. destruct (reachable_symbol_eligible _ H) as [[Hs | Hs] _].
  - discriminate Hs.
  - change (type_var stray_symbol_order) with "spot" in Hs.
    change (symbol_var stray_symbol_order) with "DOGE-USDT" in Hs.
    rewrite trading_pairs_get_spot in Hs. by apply spot_pairs_exclude_doge in Hs.
Qed.

Example spot_half_accepted : validate_input (spot_order "50%") = (true, "").
Proof. vm_compute. reflexivity. Qed.

Example spot_150_percent_rejected :
  validate_input (spot_order "150%") =
    (false, "Percentage must be between 0 and 100").
Proof. vm_compute. reflexivity. Qed.

Example spot_zero_rejected :
  validate_input (spot_order "0") = (false, "Quantity must be greater than 0").
Proof. vm_compute. reflexivity. Qed.

Example spot_text_rejected :
  validate_input (spot_order "abc") = (false, "Invalid quantity format").
Proof. vm_compute. reflexivity. Qed.

Example spot_percent_sign_rejected :
  validate_input (spot_order "%") = (false, "Invalid percentage format").
Proof. vm_compute. reflexivity. Qed.

Example spot_nan_percent_rejected :
  validate_input (spot_order "nan%") =
    (false, "Percentage must be between 0 and 100").
Proof. vm_compute. reflexivity. Qed.

(* ===================================================================== *)
(** ** The claims *)
(* ===================================================================== *)

(** C1, as stated, fails: the payload of the accepted spot order for 50%
    holds the key [authToken], with the constant [AUTH_TOKEN] as value. *)
Lemma C1_auth_token_absent_counterexample :
  validate_input (spot_order "50%") = (true, "") ∧
  exists p, send_webhook (spot_order "50%") = post p ∧
            p !! "authToken" = Some (VStr AUTH_TOKEN) ∧
            p !! "authToken" <> None.
Proof.
  split; [vm_compute; reflexivity |].
  destruct (send_webhook_valid (spot_order "50%")) as (p & Hp & Hc).
  - vm_compute. reflexivity.
  - left. vm_compute. reflexivity.
  - exists p. apply construct_payload_fields in Hc as (Hauth & _).
    split; [done |]. split; [done | by rewrite Hauth].
Qed.

(** C1 (amended): for every form the validator accepts (its leverage
    text being an integer where one is needed), [send_webhook] posts a
    payload whose [authToken] field is the constant [AUTH_TOKEN]: the
    payload construction itself puts the credential in. *)
Theorem C1_payload_carries_auth_token (a : WebhookApp) :
  fst (validate_input a) = true -> leverage_readable a ->
  exists p, send_webhook a = post p ∧ p !! "authToken" = Some (VStr AUTH_TOKEN).
Proof.
  intros Hv Hl. destruct (send_webhook_valid a Hv Hl) as (p & Hp & Hc).
  exists p. split; [done |]. by apply construct_payload_fields in Hc as (? & _).
Qed.

Lemma C1_payload_carries_auth_token_witness :
  fst (validate_input perps_order) = true ∧ leverage_readable perps_order ∧
  exists p, send_webhook perps_order = post p ∧
            p !! "authToken" = Some (VStr AUTH_TOKEN).
Proof.
  assert (Hv : fst (validate_input perps_order) = true)
    by (vm_compute; reflexivity).
  assert (Hl : leverage_readable perps_order)
    by (right; vm_compute; eauto).
  split; [exact Hv |]. split; [exact Hl |].
  exact (C1_payload_carries_auth_token perps_order Hv Hl).
Defined.

(** C2: the form as [__init__] leaves it is a reachable form with trade
    type spot, margin mode cross and leverage 10, both margin widgets
    enabled: the spot rule does not hold in the initial state. *)
Theorem C2_initial_form_breaks_spot_rule :
  reachable init ∧ type_var init = "spot" ∧
  margin_mode_var init = "cross" ∧ leverage_var init = "10" ∧
  margin_mode_dropdown_state init = "readonly" ∧
  leverage_dropdown_state init = "readonly" ∧
  ~ spot_locked init.
Proof.
  split; [apply reachable_init |]. repeat (split; [reflexivity |]).
  intros H. destruct (H eq_refl) as (Hm & _). discriminate Hm.
Qed.

(** C3, as stated, fails: with perps and ETH-USD-SWAP selected, a change
    to invperps, whose pairs include ETH-USD-SWAP, replaces the symbol
    by BTC-USD-SWAP. *)
Lemma C3_member_symbol_kept_counterexample :
  symbol_var perps_eth_usd = "ETH-USD-SWAP" ∧
  "ETH-USD-SWAP" ∈ trading_pairs_get "invperps" ∧
  symbol_var (handle (SelectType "invperps") perps_eth_usd) = "BTC-USD-SWAP" ∧
  symbol_var (handle (SelectType "invperps") perps_eth_usd)
    <> symbol_var perps_eth_usd.
Proof.
  split; [vm_compute; reflexivity |].
  split; [rewrite trading_pairs_get_invperps; set_solver |].
  split; [vm_compute; reflexivity | vm_compute; discriminate].
Qed.

(** C3 (amended): a trade-type change sets the symbol to the first pair
    of the new type, whether or not the current symbol is one of its
    pairs; the symbol is kept only when the new type has no pairs. *)
Theorem C3_type_change_selects_first_pair (a : WebhookApp) (v : string) :
  symbol_var (handle (SelectType v) a) =
    match trading_pairs_get v with
    | first :: _ => first
    | [] => symbol_var a
    end.
Proof. simpl. by rewrite on_type_change_symbol. Qed.

(** C4, as stated, fails: a spot order whose symbol is DOGE-USDT, not a
    spot pair, is accepted. *)
Lemma C4_stray_symbol_rejected_counterexample :
  symbol_var stray_symbol_order = "DOGE-USDT" ∧
  type_var stray_symbol_order = "spot" ∧
  (symbol_var stray_symbol_order ∉ trading_pairs_get (type_var stray_symbol_order)) ∧
  validate_input stray_symbol_order = (true, "").
Proof.
  split; [reflexivity |]. split; [reflexivity |].
  split; [| vm_compute; reflexivity].
  change (type_var stray_symbol_order) with "spot".
  change (symbol_var stray_symbol_order) with "DOGE-USDT".
  rewrite trading_pairs_get_spot. apply spot_pairs_exclude_doge.
Qed.

(** C4 (amended): with exchange and trade type set, [validate_input]
    gives the missing-symbol message when the symbol is unset, and
    otherwise does not look at the symbol: two non-empty symbols get the
    same verdict, member of the type's pairs or not. *)
Theorem C4_symbol_check_is_presence_only (a : WebhookApp) :
  exchange_var a <> "" -> type_var a <> "" ->
  (symbol_var a = "" ->
     validate_input a = (false, "Please select a trading pair")) ∧
  (forall v w : string, v <> "" -> w <> "" ->
     validate_input (set_symbol_var v a) = validate_input (set_symbol_var w a)).
Proof.
  intros He Ht. apply is_empty_false in He, Ht. split.
  - intros Hs. unfold validate_input. by rewrite He, Ht, Hs.
  - intros v w Hv Hw. apply is_empty_false in Hv, Hw.
    unfold validate_input, set_symbol_var. simpl. by rewrite He, Ht, Hv, Hw.
Qed.

Lemma C4_symbol_check_is_presence_only_witness :
  exchange_var init <> "" ∧ type_var init <> "" ∧
  (symbol_var init = "" ->
     validate_input init = (false, "Please select a trading pair")) ∧
  (forall v w : string, v <> "" -> w <> "" ->
     validate_input (set_symbol_var v init)
     = validate_input (set_symbol_var w init)).
Proof.
  assert (He : exchange_var init <> "") by (vm_compute; discriminate).
  assert (Ht : type_var init <> "") by (vm_compute; discriminate).
  split; [exact He |]. split; [exact Ht |].
  exact (C4_symbol_check_is_presence_only init He Ht).
Defined.

(** C5: [validate_input] is the first failure of the checks taken in the
    order exchange, trade type, symbol, then (unless closing) side,
    quantity present, quantity format; an unset exchange gives the
    missing-exchange message whatever the other fields hold; and a
    rejection carries exactly one message, which stands for one reason. *)
Theorem C5_validate_first_failure_in_order (a : WebhookApp) :
  validate_input a = verdict (first_failure checks_in_order a) ∧
  (exchange_var a = "" ->
     validate_input a = (false, "Please select an exchange")) ∧
  (validate_input a = (true, "") ∨
   fst (validate_input a) = false ∧
   is_Some (reason_of (snd (validate_input a)))).
Proof.
  split; [apply validate_input_first_failure |]. split.
  - intros He. unfold validate_input. by rewrite He.
  - unfold validate_input.
    destruct (is_empty (exchange_var a)); [rejected |].
    destruct (is_empty (type_var a)); [rejected |].
    destruct (is_empty (symbol_var a)); [rejected |].
    destruct (close_position_var a); simpl; [by left |].
    destruct (is_empty (side_var a)); [rejected |].
    destruct (is_empty (qty_var a)); [rejected |].
    destruct (endswith (qty_var a) "%").
    + destruct (float (drop_last (qty_var a))) as [pct |]; [| rejected].
      destruct (negb _); [rejected | by left].
    + destruct (float (qty_var a)) as [amt |]; [| rejected].
      destruct (fle amt _); [rejected | by left].
Qed.

Lemma C5_validate_first_failure_in_order_witness :
  exchange_var (set_exchange_var "" stray_symbol_order) = "" ∧
  validate_input (set_exchange_var "" stray_symbol_order)
  = (false, "Please select an exchange").
Proof.
  split; [reflexivity |].
  exact (proj1 (proj2 (C5_validate_first_failure_in_order
                         (set_exchange_var "" stray_symbol_order)))
               eq_refl).
Defined.

(** C6: when the checks before it pass, a quantity ending in [%] whose
    prefix parses to [v] is accepted if [0 < v <= 100] and otherwise
    gets the percentage message; a plain quantity parsing to [v] is
    accepted if [v > 0] and gets the quantity message if [v <= 0]; text
    that does not parse gets a format message in either form. *)
Theorem C6_quantity_text_rules (a : WebhookApp) :
  order_fields_set a -> quantity_rules a.
Proof.
  intros (He & Ht & Hs & Hc & Hsd & Hq).
  pose proof (validate_input_quantity a He Ht Hs Hc Hsd Hq) as Hv.
  unfold quantity_rules. rewrite Hv. unfold quantity_format, verdict.
  split; intros Hpct; rewrite Hpct.
  - destruct (float (drop_last (qty_var a))) as [v |]; [| done].
    by destruct (flt _ v && fle v _).
  - destruct (float (qty_var a)) as [v |]; [| done]. split.
    + intros Hpos. by rewrite (flt_zero_not_fle v Hpos).
    + by intros ->.
Qed.

Lemma C6_quantity_text_rules_witness :
  order_fields_set (spot_order "1.5") ∧ quantity_rules (spot_order "1.5").
Proof.
  assert (H : order_fields_set (spot_order "1.5"))
    by (vm_compute; repeat split; discriminate).
  split; [exact H | exact (C6_quantity_text_rules (spot_order "1.5") H)].
Defined.

(** C7: with exchange, trade type and symbol set and the close flag on,
    [validate_input] accepts whatever side and quantity hold, empty
    included; the payload then has [closePosition] true and neither
    [side] nor [qty]. *)
Theorem C7_closing_skips_side_and_quantity (a : WebhookApp) :
  exchange_var a <> "" -> type_var a <> "" -> symbol_var a <> "" ->
  close_position_var a = true -> leverage_readable a ->
  validate_input a = (true, "") ∧
  exists p, send_webhook a = post p ∧
            p !! "closePosition" = Some (VBool true) ∧
            p !! "side" = None ∧ p !! "qty" = None.
Proof.
  intros He Ht Hs Hc Hl.
  pose proof (validate_input_closing a He Ht Hs Hc) as Hv.
  split; [exact Hv |].
  destruct (send_webhook_valid a) as (p & Hp & Hb); [by rewrite Hv | done |].
  exists p. split; [done |].
  apply construct_payload_fields in Hb as (_ & _ & Hside & Hqty & Hclose).
  rewrite Hc in Hside, Hqty, Hclose. done.
Qed.

Lemma C7_closing_skips_side_and_quantity_witness :
  side_var perps_close = "" ∧ qty_var perps_close = "" ∧
  validate_input perps_close = (true, "") ∧
  exists p, send_webhook perps_close = post p ∧
            p !! "closePosition" = Some (VBool true) ∧
            p !! "side" = None ∧ p !! "qty" = None.
Proof.
  split; [reflexivity |]. split; [reflexivity |].
  apply (C7_closing_skips_side_and_quantity perps_close).
  - vm_compute. discriminate.
  - vm_compute. discriminate.
  - vm_compute. discriminate.
  - reflexivity.
  - right. vm_compute. eauto.
Defined.

(** C8: the payload of an accepted form has [leverage] exactly when the
    trade type is not spot, and then as the integer read from the
    leverage text; when the close flag is off it has [side] and [qty],
    the latter being the quantity text as it stands. *)
Theorem C8_leverage_side_and_qty_fields (a : WebhookApp) :
  fst (validate_input a) = true -> leverage_readable a ->
  exists p, send_webhook a = post p ∧
    (is_Some (p !! "leverage") <-> type_var a <> "spot") ∧
    (forall v, p !! "leverage" = Some v ->
       exists n : Z, v = VInt n ∧ int (leverage_var a) = Some n) ∧
    (close_position_var a = false ->
       p !! "side" = Some (VStr (side_var a)) ∧
       p !! "qty" = Some (VStr (qty_var a))).
Proof.
  intros Hv Hl. destruct (send_webhook_valid a Hv Hl) as (p & Hp & Hb).
  exists p. split; [done |].
  apply construct_payload_fields in Hb as (_ & Hlev & Hside & Hqty & _).
  rewrite Hlev. destruct (String.eqb (type_var a) "spot") eqn:Ht.
  - apply String.eqb_eq in Ht. split; [| split].
    + split; [by intros [? ?] | done].
    + done.
    + intros Hc. by rewrite Hc in Hside, Hqty.
  - apply String.eqb_neq in Ht.
    destruct Hl as [Hl | [n Hn]]; [done |]. rewrite Hn. simpl.
    split; [| split].
    + split; [done | eauto].
    + intros v [= <-]. eauto.
    + intros Hc. by rewrite Hc in Hside, Hqty.
Qed.

Lemma C8_leverage_side_and_qty_fields_witness :
  fst (validate_input perps_order) = true ∧ leverage_readable perps_order ∧
  exists p, send_webhook perps_order = post p ∧
    (is_Some (p !! "leverage") <-> type_var perps_order <> "spot") ∧
    (forall v, p !! "leverage" = Some v ->
       exists n : Z, v = VInt n ∧ int (leverage_var perps_order) = Some n) ∧
    (close_position_var perps_order = false ->
       p !! "side" = Some (VStr (side_var perps_order)) ∧
       p !! "qty" = Some (VStr (qty_var perps_order))).
Proof.
  assert (Hv : fst (validate_input perps_order) = true)
    by (vm_compute; reflexivity).
  assert (Hl : leverage_readable perps_order)
    by (right; vm_compute; eauto).
  split; [exact Hv |]. split; [exact Hl |].
  exact (C8_leverage_side_and_qty_fields perps_order Hv Hl).
Defined.

(** C9: the close toggle flips the flag and sets the state of the side
    combobox and of the quantity entry, nothing else; after one toggle
    and after two, side and quantity are what they were, and two toggles
    bring the flag back. *)
Theorem C9_close_toggle_keeps_side_and_quantity (a : WebhookApp) :
  let b := handle ToggleClosePosition a in
  let c := handle ToggleClosePosition b in
  close_position_var b = negb (close_position_var a) ∧
  close_position_var c = close_position_var a ∧
  side_var b = side_var a ∧ qty_var b = qty_var a ∧
  side_var c = side_var a ∧ qty_var c = qty_var a ∧
  side_var (on_close_position_toggle a) = side_var a ∧
  qty_var (on_close_position_toggle a) = qty_var a ∧
  b = set_qty_entry_state (qty_entry_state b)
        (set_side_dropdown_state (side_dropdown_state b)
           (set_close_position_var (negb (close_position_var a)) a)).
Proof.
  cbv zeta. unfold handle, on_close_position_toggle.
  destruct (close_position_var a); repeat split; reflexivity.
Qed.

(** C10: the quantity texts nan and inf parse to a float that is not a
    positive finite number, yet a spot order with exchange, trade type,
    symbol and side set and such a quantity is accepted, and its payload
    carries the text as [qty]. *)
Theorem C10_nan_and_inf_accepted :
  Forall
    (fun q : string =>
       order_fields_set (spot_order q) ∧
       (exists v, float q = Some v ∧ positive_finite v = false) ∧
       validate_input (spot_order q) = (true, "") ∧
       exists p, send_webhook (spot_order q) = post p ∧
                 p !! "qty" = Some (VStr q))
    ["nan"; "inf"].
Proof.
  repeat constructor; try (vm_compute; discriminate);
    try (vm_compute; reflexivity).
  - eexists. split; vm_compute; reflexivity.
  - eexists. split; vm_compute; reflexivity.
  - eexists. split; vm_compute; reflexivity.
  - eexists. split; vm_compute; reflexivity.
Qed.


(* ===================================================================== *)
(** ** Further properties of the handlers *)
(* ===================================================================== *)

Lemma trading_pairs_get_unknown (v : string) :
  v ∉ type_values -> trading_pairs_get v = [].
Proof.
  unfold type_values. rewrite !not_elem_of_cons. intros (H1 & H2 & H3 & _).
  unfold trading_pairs_get, trading_pairs. simpl.
  rewrite !lookup_insert_ne by done. by rewrite lookup_empty.
Qed.

Lemma trading_pairs_get_offered (v : string) :
  v ∈ type_values ->
  exists first rest, trading_pairs_get v = first :: rest.
Proof.
  unfold type_values. rewrite !elem_of_cons, elem_of_nil.
  intros [-> | [-> | [-> | []]]]; vm_compute; eauto.
Qed.

Lemma clear_form_cleared (a : WebhookApp) :
  clear_form a = cleared_form (side_dropdown_state a) (qty_entry_state a).
Proof. destruct a. vm_compute. reflexivity. Qed.

Lemma widget_form_cleared (side_state qty_state : string) :
  widget_form (cleared_form side_state qty_state).
Proof.
  split; simpl; try discriminate;
    try (unfold exchange_values, type_values, side_values, margin_modes,
           leverage_values; set_solver).
Qed.

(** Membership in a list that is written out. *)
Ltac in_list :=
  solve [repeat first [apply list_elem_of_here | apply list_elem_of_further]].

Lemma widget_form_on_type_change (a : WebhookApp) :
  exchange_var a ∈ "" :: exchange_values ->
  type_var a ∈ type_values ->
  side_var a ∈ "" :: side_values ->
  (close_position_var a = true ->
   side_dropdown_state a = "disabled" ∧ qty_entry_state a = "disabled") ->
  widget_form (on_type_change a).
Proof.
  intros He Ht Hs Hc.
  destruct (on_type_change_frame a) as (Fe & Ft & Fs & _ & Fc & Fss & Fqs).
  pose proof (on_type_change_margin a) as Hm. cbv zeta in Hm.
  constructor.
  - by rewrite Fe.
  - rewrite Ft. by apply list_elem_of_further.
  - by rewrite Fs.
  - destruct (String.eqb (type_var a) "spot");
      destruct Hm as (Hmm & _); rewrite Hmm; unfold margin_modes; in_list.
  - apply on_type_change_leverage_offered.
  - rewrite Ft. destruct (String.eqb (type_var a) "spot") eqn:E.
    + intros _. by apply String.eqb_eq.
    + destruct Hm as (Hmm & _). rewrite Hmm. discriminate.
  - by rewrite Fc, Fss, Fqs.
  - right. apply on_type_change_spot_locked.
Qed.

Lemma margin_mode_values_modes (v : string) :
  v ∈ margin_mode_values -> v ∈ margin_modes ∧ v <> "cash".
Proof.
  unfold margin_mode_values. rewrite !elem_of_cons, elem_of_nil.
  intros [-> | [-> | []]]; (split; [unfold margin_modes; in_list | discriminate]).
Qed.

Lemma reachable_widget_form (a : WebhookApp) :
  reachable a -> widget_form a.
Proof.
  induction 1 as [| a b _ IH Hstep].
  - constructor; simpl; try discriminate;
      try (unfold exchange_values, type_values, side_values, margin_modes,
             leverage_values; in_list).
    by left.
  - destruct Hstep as [a e Hoff].
    destruct IH as [Hex Hty Hsd Hmg Hlv Hcash Hcl Hsy].
    destruct e; simpl in Hoff.
    + constructor; try assumption. simpl. by apply list_elem_of_further.
    + simpl. apply widget_form_on_type_change; assumption.
    + constructor; try assumption.
      destruct Hsy as [[_ Hv] | Hl]; [| by right].
      rewrite Hv in Hoff. by apply elem_of_nil in Hoff.
    + constructor; try assumption. simpl. apply list_elem_of_further, Hoff.
    + constructor; assumption.
    + constructor; assumption.
    + destruct Hoff as [Hin Hst].
      apply margin_mode_values_modes in Hin as [Hin Hne].
      constructor; try assumption.
      * simpl. intros Hc. by destruct Hne.
      * destruct Hsy as [Hb | Hl]; [by left | right].
        intros Ht. destruct (Hl Ht) as (_ & _ & Hd & _). by destruct Hst.
    + destruct Hoff as [Hin Hst]. constructor; try assumption.
      destruct Hsy as [Hb | Hl]; [by left | right].
      intros Ht. destruct (Hl Ht) as (_ & _ & _ & Hd). by destruct Hst.
    + constructor; try assumption. simpl.
      destruct (close_position_var a); simpl; [discriminate | done].
    + constructor; assumption.
    + simpl. rewrite clear_form_cleared. apply widget_form_cleared.
Qed.

Lemma leverage_values_range (v : string) :
  v ∈ leverage_values -> exists n : Z, int v = Some n ∧ 1 <= n <= 125.
Proof.
  unfold leverage_values. rewrite !elem_of_cons, elem_of_nil.
  intros H.
  repeat (destruct H as [-> | H];
          [eexists; split; [vm_compute; reflexivity | lia] |]).
  contradiction.
Qed.

(** The four fields of the dict literal in a payload that was built. *)
Lemma construct_payload_base_fields (a : WebhookApp) (p : gmap string pyval) :
  construct_payload a = Some p ->
  p !! "exchange" = Some (VStr (exchange_var a)) ∧
  p !! "symbol" = Some (VStr (symbol_var a)) ∧
  p !! "type" = Some (VStr (type_var a)) ∧
  p !! "marginMode" = Some (VStr (margin_mode_var a)).
Proof.
  assert (Hbase :
    payload_literal a !! "exchange" = Some (VStr (exchange_var a)) ∧
    payload_literal a !! "symbol" = Some (VStr (symbol_var a)) ∧
    payload_literal a !! "type" = Some (VStr (type_var a)) ∧
    payload_literal a !! "marginMode" = Some (VStr (margin_mode_var a))).
  { unfold payload_literal. simpl. repeat split; by simplify_map_eq. }
  destruct Hbase as (He & Hs & Ht & Hm).
  destruct (decide (type_var a = "spot")) as [Hsp | Hsp].
  - rewrite leverage_step_spot by done. intros [= <-].
    destruct (close_position_var a); simpl; by simplify_map_eq.
  - rewrite leverage_step_margin by done.
    destruct (int (leverage_var a)) as [n |]; simpl; [| done].
    intros [= <-].
    destruct (close_position_var a); simpl; by simplify_map_eq.
Qed.

Lemma payload_literal_dom (a : WebhookApp) :
  dom (payload_literal a)
  = list_to_set ["authToken"; "exchange"; "symbol"; "type"; "marginMode"].
Proof. unfold payload_literal. by rewrite dom_list_to_map_L. Qed.

Lemma construct_payload_dom (a : WebhookApp) (p : gmap string pyval) :
  construct_payload a = Some p -> dom p = payload_keys a.
Proof.
  unfold payload_keys.
  destruct (decide (type_var a = "spot")) as [Hsp | Hsp].
  - rewrite leverage_step_spot by done. intros [= <-].
    apply String.eqb_eq in Hsp as ->.
    destruct (close_position_var a); simpl;
      rewrite !dom_insert_L, payload_literal_dom; set_solver.
  - rewrite leverage_step_margin by done.
    apply String.eqb_neq in Hsp as ->.
    destruct (int (leverage_var a)) as [n |]; simpl; [| done].
    intros [= <-].
    destruct (close_position_var a); simpl;
      rewrite !dom_insert_L, payload_literal_dom; set_solver.
Qed.

Lemma spot_locked_run (es : list event) (a : WebhookApp) :
  spot_locked a -> all_offered es a -> spot_locked (run es a).
Proof.
  revert a. induction es as [| e es IH]; intros a Ha Hes; [exact Ha |].
  destruct Hes as [He Hes]. apply (IH (handle e a)); [| exact Hes].
  apply (spot_locked_step a); [exact Ha | by constructor].
Qed.

(** The three leading fields of an accepted form are set. *)
Lemma validate_input_accepts (a : WebhookApp) :
  validate_input a = (true, "") <->
  exchange_var a <> "" ∧ type_var a <> "" ∧ symbol_var a <> "" ∧
  (close_position_var a = true ∨
   side_var a <> "" ∧ qty_var a <> "" ∧ quantity_format a = None).
Proof.
  rewrite <- !is_empty_false. rewrite validate_input_first_failure.
  unfold checks_in_order, first_failure, require_set, unless_closing, verdict.
  destruct (is_empty (exchange_var a)); [split; [done | by intros (? & _)] |].
  destruct (is_empty (type_var a)); [split; [done | by intros (_ & ? & _)] |].
  destruct (is_empty (symbol_var a));
    [split; [done | by intros (_ & _ & ? & _)] |].
  destruct (close_position_var a); [split; [by eauto 6 | done] |].
  destruct (is_empty (side_var a));
    [split; [done | by intros (_ & _ & _ & [? | (? & _)])] |].
  destruct (is_empty (qty_var a));
    [split; [done | by intros (_ & _ & _ & [? | (_ & ? & _)])] |].
  destruct (quantity_format a) as [msg |].
  - split; [done | by intros (_ & _ & _ & [? | (_ & _ & ?)])].
  - split; [by eauto 8 | done].
Qed.

Lemma validate_input_message (a : WebhookApp) :
  fst (validate_input a) = true <-> snd (validate_input a) = "".
Proof.
  unfold validate_input.
  repeat match goal with
         | |- context [if ?c then _ else _] => destruct c; simpl; try done
         | |- context [match ?c with Some _ => _ | None => _ end] =>
             destruct c; simpl; try done
         end.
Qed.

(** [on_type_change] field by field. *)
Lemma on_type_change_eq (a : WebhookApp) :
  on_type_change a =
    {| exchange_var := exchange_var a;
       type_var := type_var a;
       symbol_var :=
         match trading_pairs_get (type_var a) with
         | first :: _ => first
         | [] => symbol_var a
         end;
       side_var := side_var a;
       qty_var := qty_var a;
       margin_mode_var :=
         if String.eqb (type_var a) "spot" then "cash" else "cross";
       leverage_var := if String.eqb (type_var a) "spot" then "1" else "10";
       close_position_var := close_position_var a;
       symbol_dropdown_values := trading_pairs_get (type_var a);
       side_dropdown_state := side_dropdown_state a;
       qty_entry_state := qty_entry_state a;
       margin_mode_dropdown_state :=
         if String.eqb (type_var a) "spot" then "disabled" else "readonly";
       leverage_dropdown_state :=
         if String.eqb (type_var a) "spot" then "disabled" else "readonly" |}.
Proof.
  unfold_handlers.
  destruct (trading_pairs_get (type_var a)), (String.eqb (type_var a) "spot");
    reflexivity.
Qed.

Ltac project_fields :=
  cbn [exchange_var type_var symbol_var side_var qty_var margin_mode_var
       leverage_var close_position_var symbol_dropdown_values
       side_dropdown_state qty_entry_state margin_mode_dropdown_state
       leverage_dropdown_state set_leverage_var set_margin_mode_var].

(** X1: running [on_type_change] twice is the same as running it once,
    and the margin mode and leverage a form holds have no influence on
    its result: whatever the user chose there is overwritten. *)
Theorem type_change_settles_and_resets_margin (a : WebhookApp) :
  on_type_change (on_type_change a) = on_type_change a ∧
  forall m l : string,
    on_type_change (set_leverage_var l (set_margin_mode_var m a))
    = on_type_change a.
Proof.
  split.
  - rewrite (on_type_change_eq (on_type_change a)).
    rewrite !(on_type_change_eq a). project_fields.
    by destruct (trading_pairs_get (type_var a)).
  - intros m l. rewrite !on_type_change_eq. project_fields. reflexivity.
Qed.

(** X2: for a trade type without an entry in [trading_pairs] (any text
    outside the offered types, the empty one included) [on_type_change]
    keeps the symbol, empties the value list of the symbol combobox and
    sets cross margin with leverage 10 on enabled widgets. *)
Theorem unknown_type_keeps_symbol (a : WebhookApp) :
  type_var a ∉ type_values ->
  symbol_var (on_type_change a) = symbol_var a ∧
  symbol_dropdown_values (on_type_change a) = [] ∧
  margin_mode_var (on_type_change a) = "cross" ∧
  leverage_var (on_type_change a) = "10" ∧
  margin_mode_dropdown_state (on_type_change a) = "readonly" ∧
  leverage_dropdown_state (on_type_change a) = "readonly".
Proof.
  intros Ht.
  assert (Hs : String.eqb (type_var a) "spot" = false).
  { apply String.eqb_neq. intros E. apply Ht. rewrite E.
    unfold type_values. in_list. }
  rewrite on_type_change_symbol, on_type_change_values.
  rewrite (trading_pairs_get_unknown _ Ht).
  pose proof (on_type_change_margin a) as Hm. cbv zeta in Hm.
  rewrite Hs in Hm. by destruct Hm as (? & ? & ? & ?).
Qed.

Lemma unknown_type_keeps_symbol_witness :
  (type_var (set_type_var "" perps_eth_usd) ∉ type_values) ∧
  symbol_var (on_type_change (set_type_var "" perps_eth_usd))
  = "ETH-USD-SWAP" ∧
  symbol_dropdown_values (on_type_change (set_type_var "" perps_eth_usd))
  = [].
Proof.
  assert (H : type_var (set_type_var "" perps_eth_usd) ∉ type_values).
  { unfold type_values. simpl. rewrite !not_elem_of_cons.
    repeat split; try discriminate. apply not_elem_of_nil. }
  split; [exact H |].
  destruct (unknown_type_keeps_symbol _ H) as (Hs & Hv & _).
  split; [exact Hs | exact Hv].
Defined.

(** X3: every trade type the type combobox offers has pairs, and after
    it is selected the symbol is the first of them, a member of the list
    that the symbol combobox now offers. *)
Theorem offered_type_selects_member_symbol (a : WebhookApp) (v : string) :
  v ∈ type_values ->
  let b := handle (SelectType v) a in
  type_var b = v ∧
  symbol_dropdown_values b = trading_pairs_get v ∧
  head (trading_pairs_get v) = Some (symbol_var b) ∧
  symbol_var b ∈ symbol_dropdown_values b.
Proof.
  intros Hv. cbv zeta. simpl handle.
  destruct (on_type_change_frame (set_type_var v a)) as (_ & Ht & _).
  rewrite on_type_change_symbol, on_type_change_values, Ht. simpl.
  destruct (trading_pairs_get_offered v Hv) as (first & rest & ->).
  repeat split. apply list_elem_of_here.
Qed.

Lemma offered_type_selects_member_symbol_witness :
  "invperps" ∈ type_values ∧
  symbol_var (handle (SelectType "invperps") perps_eth_usd)
  ∈ symbol_dropdown_values (handle (SelectType "invperps") perps_eth_usd).
Proof.
  assert (H : "invperps" ∈ type_values) by (unfold type_values; in_list).
  split; [exact H |].
  exact (proj2 (proj2 (proj2
    (offered_type_selects_member_symbol perps_eth_usd "invperps" H)))).
Defined.

(** X4: once a trade type has been selected or the form cleared, the
    spot rule (spot means cash margin, leverage 1 and both margin widgets
    disabled) holds, from any form, and keeps holding through every
    sequence of actions the widgets offer. *)
Theorem spot_rule_after_first_sync
    (a : WebhookApp) (e : event) (es : list event) :
  synchronising e -> all_offered es (handle e a) ->
  spot_locked (run es (handle e a)).
Proof.
  intros He Hes. apply spot_locked_run; [| exact Hes].
  apply spot_locked_after_sync.
  destruct e; simpl in He; try contradiction; eauto.
Qed.

Lemma spot_rule_after_first_sync_witness :
  synchronising (SelectType "spot") ∧
  all_offered [SelectSymbol "ETH-USDT"; ToggleClosePosition; SelectQtyPreset "25%"]
    (handle (SelectType "spot") init) ∧
  spot_locked
    (run [SelectSymbol "ETH-USDT"; ToggleClosePosition; SelectQtyPreset "25%"]
       (handle (SelectType "spot") init)).
Proof.
  assert (H1 : synchronising (SelectType "spot")) by exact I.
  assert (H2 : all_offered
                 [SelectSymbol "ETH-USDT"; ToggleClosePosition;
                  SelectQtyPreset "25%"]
                 (handle (SelectType "spot") init)).
  { repeat split; vm_compute; first [exact I | in_list]. }
  split; [exact H1 |]. split; [exact H2 |].
  exact (spot_rule_after_first_sync init (SelectType "spot") _ H1 H2).
Defined.

(** X5: a payload posted from a form reached through the widgets names
    an offered exchange, an offered trade type and a pair of that type,
    and, unless it closes a position, an offered side. *)
Theorem posted_fields_are_offered_values
    (a : WebhookApp) (p : gmap string pyval) :
  reachable a -> send_webhook a = post p ->
  p !! "exchange" = Some (VStr (exchange_var a)) ∧
  exchange_var a ∈ exchange_values ∧
  p !! "type" = Some (VStr (type_var a)) ∧
  type_var a ∈ type_values ∧
  p !! "symbol" = Some (VStr (symbol_var a)) ∧
  symbol_var a ∈ trading_pairs_get (type_var a) ∧
  (close_position_var a = false ->
   p !! "side" = Some (VStr (side_var a)) ∧ side_var a ∈ side_values).
Proof.
  intros Hr Hp. apply send_webhook_post in Hp as [Hv Hb].
  assert (Hacc : validate_input a = (true, "")).
  { destruct (validate_input a) as [ok msg] eqn:E. simpl in Hv. subst ok.
    pose proof (proj1 (validate_input_message a)) as Hm.
    rewrite E in Hm. simpl in Hm. by rewrite Hm. }
  apply validate_input_accepts in Hacc as (He & Ht & Hs & Hrest).
  destruct (reachable_widget_form a Hr) as [Hex Hty Hsd _ _ _ _ _].
  destruct (reachable_symbol_eligible a Hr) as [Hsym _].
  destruct (construct_payload_base_fields a p Hb) as (Pe & Ps & Pt & _).
  destruct (construct_payload_fields a p Hb) as (_ & _ & Pside & _).
  apply elem_of_cons in Hex as [Hex | Hex]; [done |].
  apply elem_of_cons in Hty as [Hty | Hty]; [done |].
  destruct Hsym as [Hsym | Hsym]; [done |].
  do 6 (split; [assumption |]).
  intros Hc. rewrite Hc in Hrest, Pside. split; [exact Pside |].
  destruct Hrest as [? | (Hside & _)]; [done |].
  apply elem_of_cons in Hsd as [Hsd | Hsd]; done.
Qed.

Lemma posted_fields_are_offered_values_witness :
  reachable perps_order ∧
  send_webhook perps_order = post (payload_of (send_webhook perps_order)) ∧
  payload_of (send_webhook perps_order) !! "symbol"
  = Some (VStr (symbol_var perps_order)) ∧
  symbol_var perps_order ∈ trading_pairs_get (type_var perps_order).
Proof.
  assert (H1 : reachable perps_order) by exact perps_order_reachable.
  assert (H2 : send_webhook perps_order
               = post (payload_of (send_webhook perps_order)))
    by (vm_compute; reflexivity).
  split; [exact H1 |]. split; [exact H2 |].
  destruct (posted_fields_are_offered_values perps_order _ H1 H2)
    as (_ & _ & _ & _ & Hs & Hin & _).
  split; [exact Hs | exact Hin].
Defined.

(** X6: in a payload posted from a form reached through the widgets, a
    spot order has margin mode cash and no leverage, and any other order
    has margin mode cross or isolated and a leverage between 1 and 125:
    the initial spot form with cross margin can never be sent as it is. *)
Theorem posted_margin_settings_fit_type
    (a : WebhookApp) (p : gmap string pyval) :
  reachable a -> send_webhook a = post p ->
  (type_var a = "spot" ->
   p !! "marginMode" = Some (VStr "cash") ∧ p !! "leverage" = None) ∧
  (type_var a <> "spot" ->
   (p !! "marginMode" = Some (VStr "cross") ∨
    p !! "marginMode" = Some (VStr "isolated")) ∧
   exists n : Z, p !! "leverage" = Some (VInt n) ∧ 1 <= n <= 125).
Proof.
  intros Hr Hp. apply send_webhook_post in Hp as [Hv Hb].
  assert (Hacc : validate_input a = (true, "")).
  { destruct (validate_input a) as [ok msg] eqn:E. simpl in Hv. subst ok.
    pose proof (proj1 (validate_input_message a)) as Hm.
    rewrite E in Hm. simpl in Hm. by rewrite Hm. }
  apply validate_input_accepts in Hacc as (_ & _ & Hs & _).
  destruct (reachable_widget_form a Hr) as [_ _ _ Hmg Hlv Hcash _ Hsy].
  destruct (construct_payload_base_fields a p Hb) as (_ & _ & _ & Pm).
  destruct (construct_payload_fields a p Hb) as (_ & Pl & _).
  split; intros Ht.
  - destruct Hsy as [[Hblank _] | Hl]; [done |].
    destruct (Hl Ht) as (Hm & _). rewrite Pm, Pl, Hm.
    apply String.eqb_eq in Ht. by rewrite Ht.
  - rewrite Pm, Pl. apply String.eqb_neq in Ht as Hf. rewrite Hf. split.
    + unfold margin_modes in Hmg. rewrite !elem_of_cons, elem_of_nil in Hmg.
      destruct Hmg as [Hm | [Hm | [Hm | []]]].
      * by apply Hcash in Hm.
      * left. by rewrite Hm.
      * right. by rewrite Hm.
    + destruct (leverage_values_range _ Hlv) as (n & Hn & Hrange).
      exists n. by rewrite Hn.
Qed.

Lemma posted_margin_settings_fit_type_witness :
  reachable (spot_order "50%") ∧
  send_webhook (spot_order "50%")
  = post (payload_of (send_webhook (spot_order "50%"))) ∧
  type_var (spot_order "50%") = "spot" ∧
  payload_of (send_webhook (spot_order "50%")) !! "marginMode"
  = Some (VStr "cash").
Proof.
  assert (H1 : reachable (spot_order "50%")) by exact (spot_order_reachable _).
  assert (H2 : send_webhook (spot_order "50%")
               = post (payload_of (send_webhook (spot_order "50%"))))
    by (vm_compute; reflexivity).
  split; [exact H1 |]. split; [exact H2 |]. split; [reflexivity |].
  exact (proj1 (proj1 (posted_margin_settings_fit_type _ _ H1 H2) eq_refl)).
Defined.

(** X7: [send_webhook] ends in the [ValueError] of [int] exactly when
    the form is accepted, its trade type is not spot and its leverage
    text is no integer: [validate_input] never looks at the leverage. *)
Theorem send_webhook_value_error_iff (a : WebhookApp) :
  send_webhook a = value_error <->
  fst (validate_input a) = true ∧ type_var a <> "spot" ∧
  int (leverage_var a) = None.
Proof.
  unfold send_webhook. destruct (validate_input a) as [[] msg]; simpl.
  - destruct (decide (type_var a = "spot")) as [Ht | Ht].
    + rewrite leverage_step_spot by done. split; [done | by intros (_ & ? & _)].
    + rewrite leverage_step_margin by done.
      destruct (int (leverage_var a)) as [n |]; simpl.
      * split; [done | by intros (_ & _ & ?)].
      * done.
  - split; [done | by intros (? & _)].
Qed.

(** X8: from a form reached through the widgets [send_webhook] never
    raises: it shows the validator's message when the form is rejected
    and posts a payload when it is accepted. *)
Theorem reachable_send_never_raises (a : WebhookApp) :
  reachable a ->
  (fst (validate_input a) = false ∧
   send_webhook a = validation_error (snd (validate_input a))) ∨
  (validate_input a = (true, "") ∧ exists p, send_webhook a = post p).
Proof.
  intros Hr. destruct (validate_input a) as [[] msg] eqn:E.
  - right.
    assert (Hv : fst (validate_input a) = true) by (by rewrite E).
    destruct (send_webhook_valid a Hv (reachable_leverage_readable a Hr))
      as (p & Hp & _).
    apply validate_input_message in Hv. rewrite E in Hv. simpl in Hv.
    subst msg. eauto.
  - left. unfold send_webhook. by rewrite E.
Qed.

Lemma reachable_send_never_raises_witness :
  reachable init ∧
  ((fst (validate_input init) = false ∧
    send_webhook init = validation_error (snd (validate_input init))) ∨
   (validate_input init = (true, "") ∧ exists p, send_webhook init = post p)).
Proof.
  split; [exact reachable_init |].
  exact (reachable_send_never_raises init reachable_init).
Defined.

(** X9: the keys of a posted payload are the five of the dict literal,
    [leverage] unless the trade type is spot, and either [closePosition]
    or both [side] and [qty], never a mix of the two. *)
Theorem posted_payload_key_set (a : WebhookApp) (p : gmap string pyval) :
  send_webhook a = post p -> dom p = payload_keys a.
Proof.
  intros Hp. apply send_webhook_post in Hp as [_ Hb].
  by apply construct_payload_dom.
Qed.

Lemma posted_payload_key_set_witness :
  send_webhook perps_close = post (payload_of (send_webhook perps_close)) ∧
  dom (payload_of (send_webhook perps_close)) = payload_keys perps_close.
Proof.
  assert (H : send_webhook perps_close
              = post (payload_of (send_webhook perps_close)))
    by (vm_compute; reflexivity).
  split; [exact H | exact (posted_payload_key_set _ _ H)].
Defined.

(** X10: [clear_form] empties every variable except margin mode and
    leverage, which [on_type_change] sets back to cross and 10; it
    empties the symbol list, enables the margin widgets and leaves the
    states of the side combobox and of the quantity entry as they were.
    Clearing twice changes nothing more, and a cleared form is rejected
    for its missing exchange. *)
Theorem clear_form_result (a : WebhookApp) :
  clear_form a = cleared_form (side_dropdown_state a) (qty_entry_state a) ∧
  clear_form (clear_form a) = clear_form a ∧
  send_webhook (clear_form a) = validation_error "Please select an exchange".
Proof.
  rewrite !clear_form_cleared. repeat split.
Qed.

(** X11: in a form reached through the widgets that closes a position,
    [clear_form] turns the close flag off but leaves the side combobox
    and the quantity entry disabled, so neither a side nor a typed
    quantity is offered although both are now required; one more toggle
    of the close flag brings the widgets back in line with it. *)
Theorem clear_while_closing_keeps_entry_disabled (a : WebhookApp) :
  reachable a -> close_position_var a = true ->
  close_position_var (clear_form a) = false ∧
  (forall v, ~ offered (clear_form a) (SelectSide v)) ∧
  (forall text, ~ offered (clear_form a) (TypeQuantity text)) ∧
  ~ widgets_match_flag (clear_form a) ∧
  widgets_match_flag (handle ToggleClosePosition (clear_form a)).
Proof.
  intros Hr Hc.
  destruct (reachable_widget_form a Hr) as [_ _ _ _ _ _ Hcl _].
  destruct (Hcl Hc) as [Hs Hq].
  rewrite clear_form_cleared, Hs, Hq. simpl.
  split; [reflexivity |]. split; [by intros v [_ H] |].
  split; [by intros text H |]. split; [by intros [H _] | by split].
Qed.

Lemma clear_while_closing_keeps_entry_disabled_witness :
  reachable perps_close ∧ close_position_var perps_close = true ∧
  close_position_var (clear_form perps_close) = false ∧
  (forall v, ~ offered (clear_form perps_close) (SelectSide v)).
Proof.
  assert (H1 : reachable perps_close) by exact perps_close_reachable.
  assert (H2 : close_position_var perps_close = true) by reflexivity.
  split; [exact H1 |]. split; [exact H2 |].
  destruct (clear_while_closing_keeps_entry_disabled perps_close H1 H2)
    as (Hf & Hside & _).
  split; [exact Hf | exact Hside].
Defined.

Lemma validate_input_ext (a b : WebhookApp) :
  exchange_var a = exchange_var b -> type_var a = type_var b ->
  symbol_var a = symbol_var b ->
  close_position_var a = close_position_var b ->
  side_var a = side_var b -> qty_var a = qty_var b ->
  validate_input a = validate_input b.
Proof.
  intros He Ht Hs Hc Hsd Hq. unfold validate_input.
  by rewrite He, Ht, Hs, Hc, Hsd, Hq.
Qed.

(** X12: the verdict of [validate_input] depends on six things only:
    exchange, trade type, symbol, close flag, side and quantity.  Margin
    mode, leverage and every widget option are never read. *)
Theorem validate_reads_six_fields (a b : WebhookApp) :
  exchange_var a = exchange_var b -> type_var a = type_var b ->
  symbol_var a = symbol_var b ->
  close_position_var a = close_position_var b ->
  side_var a = side_var b -> qty_var a = qty_var b ->
  validate_input a = validate_input b.
Proof. apply validate_input_ext. Qed.

Lemma validate_reads_six_fields_witness :
  validate_input (set_leverage_var "ten" perps_order)
  = validate_input perps_order.
Proof.
  exact (validate_reads_six_fields (set_leverage_var "ten" perps_order)
           perps_order eq_refl eq_refl eq_refl eq_refl eq_refl eq_refl).
Defined.

(** X13: every quantity preset is a valid quantity: with exchange, trade
    type, symbol and side set and the close flag off, choosing any preset
    makes the form valid. *)
Theorem presets_are_valid_quantities (a : WebhookApp) (q : string) :
  q ∈ qty_presets ->
  exchange_var a <> "" -> type_var a <> "" -> symbol_var a <> "" ->
  close_position_var a = false -> side_var a <> "" ->
  validate_input (handle (SelectQtyPreset q) a) = (true, "").
Proof.
  intros Hq He Ht Hs Hc Hsd. simpl handle.
  rewrite (validate_input_ext _
             (mkApp (exchange_var a) (type_var a) (symbol_var a) (side_var a)
                    q "" "" false [] "" "" "" ""))
    by (simpl; congruence).
  apply is_empty_false in He, Ht, Hs, Hsd.
  unfold validate_input. simpl. rewrite He, Ht, Hs, Hsd.
  unfold qty_presets in Hq. rewrite !elem_of_cons, elem_of_nil in Hq.
  repeat (destruct Hq as [-> | Hq]; [vm_compute; reflexivity |]).
  contradiction.
Qed.

Lemma presets_are_valid_quantities_witness :
  "25%" ∈ qty_presets ∧
  validate_input (handle (SelectQtyPreset "25%") (spot_order "")) = (true, "").
Proof.
  assert (H : "25%" ∈ qty_presets) by (unfold qty_presets; in_list).
  split; [exact H |].
  apply (presets_are_valid_quantities (spot_order "") "25%" H);
    first [reflexivity | vm_compute; discriminate].
Defined.

(** X14: after a toggle of the close flag the side combobox and the
    quantity entry are in the state that goes with the flag, and when
    they already were, two toggles give back the very same form. *)
Theorem double_toggle_restores_form (a : WebhookApp) :
  widgets_match_flag (handle ToggleClosePosition a) ∧
  (widgets_match_flag a ->
   handle ToggleClosePosition (handle ToggleClosePosition a) = a).
Proof.
  destruct a as [ex ty sy sd qt mm lv cl vals sds qs mms lvs].
  unfold widgets_match_flag. simpl.
  split; [by destruct cl |].
  intros [-> ->]. by destruct cl.
Qed.

Lemma double_toggle_restores_form_witness :
  widgets_match_flag perps_order ∧
  handle ToggleClosePosition (handle ToggleClosePosition perps_order)
  = perps_order.
Proof.
  assert (H : widgets_match_flag perps_order) by (split; reflexivity).
  split; [exact H | exact (proj2 (double_toggle_restores_form perps_order) H)].
Defined.

(** X15: selecting a trade type stores it and changes nothing of the
    order entry: exchange, side, quantity, close flag and the states of
    the side combobox and of the quantity entry stay as they were. *)
Theorem type_change_keeps_order_entry (a : WebhookApp) (v : string) :
  let b := handle (SelectType v) a in
  type_var b = v ∧
  exchange_var b = exchange_var a ∧ side_var b = side_var a ∧
  qty_var b = qty_var a ∧ close_position_var b = close_position_var a ∧
  side_dropdown_state b = side_dropdown_state a ∧
  qty_entry_state b = qty_entry_state a.
Proof.
  cbv zeta. simpl handle.
  destruct (on_type_change_frame (set_type_var v a))
    as (He & Ht & Hs & Hq & Hc & Hss & Hqs).
  by rewrite He, Ht, Hs, Hq, Hc, Hss, Hqs.
Qed.

Lemma symbol_shown_is_offered (a : WebhookApp) :
  reachable a ->
  symbol_var a = "" ∨ symbol_var a ∈ symbol_dropdown_values a.
Proof.
  induction 1 as [| a b _ IH Hstep]; [by left |].
  destruct Hstep as [a e Hoff]. destruct e; try exact IH.
  - simpl handle. rewrite on_type_change_symbol, on_type_change_values.
    destruct (on_type_change_frame (set_type_var v a)) as (_ & Ht & _).
    simpl in Ht. simpl type_var.
    destruct (trading_pairs_get v) as [| first rest] eqn:E.
    + simpl in Hoff. destruct (trading_pairs_get_offered v Hoff)
        as (f & r & E'). congruence.
    + right. apply list_elem_of_here.
  - right. exact Hoff.
  - left. simpl handle. by rewrite clear_form_cleared.
Qed.

(** X16: in every form reached through the widgets the stored symbol is
    empty or one of the values the symbol combobox offers, and every
    offered value is a pair of the stored trade type. *)
Theorem reachable_symbol_matches_type (a : WebhookApp) :
  reachable a ->
  (symbol_var a = "" ∨ symbol_var a ∈ symbol_dropdown_values a) ∧
  (forall v, v ∈ symbol_dropdown_values a ->
             v ∈ trading_pairs_get (type_var a)).
Proof.
  intros Hr. split; [by apply symbol_shown_is_offered |].
  by destruct (reachable_symbol_eligible a Hr) as [_ Hv].
Qed.

Lemma reachable_symbol_matches_type_witness :
  reachable perps_eth_usd ∧
  (symbol_var perps_eth_usd = "" ∨
   symbol_var perps_eth_usd ∈ symbol_dropdown_values perps_eth_usd).
Proof.
  assert (H : reachable perps_eth_usd).
  { apply run_reachable; [apply reachable_init |].
    repeat split; vm_compute; first [exact I | in_list]. }
  split; [exact H | exact (proj1 (reachable_symbol_matches_type _ H))].
Defined.

Lemma send_webhook_posts (a : WebhookApp) :
  (exists p, send_webhook a = post p) <->
  fst (validate_input a) = true ∧ leverage_readable a.
Proof.
  split.
  - intros [p Hp]. apply send_webhook_post in Hp as [Hv Hb].
    split; [exact Hv |]. apply construct_payload_is_Some. eauto.
  - intros [Hv Hl]. destruct (send_webhook_valid a Hv Hl) as (p & Hp & _).
    eauto.
Qed.

(** X17: [send_webhook] posts a payload exactly when [validate_input]
    accepts the form and the leverage text reads as an integer or the
    trade type is spot; a rejected form never reaches the request. *)
Theorem send_webhook_posts_iff (a : WebhookApp) :
  (exists p, send_webhook a = post p) <->
  fst (validate_input a) = true ∧ leverage_readable a.
Proof. apply send_webhook_posts. Qed.

